(** * Node-view lifecycle of [packages/core/src/NodeView.ts]

    A shallow embedding of the [NodeView] class: its position tracking
    ([onBeforeUpdateState]), the construction / reuse decision, teardown,
    event mediation ([stopEvent], [ignoreMutation]) and [updateAttributes].

    JavaScript objects that are shared and mutated (node-view instances, the
    editor with its cache and its listeners) live in an explicit store;
    observable calls into the host (mount, destroyed, dispatch) are recorded
    in a trace. *)

From stdpp Require Import gmap strings list fin_maps.

Local Open Scope Z_scope.

(** ** JavaScript values *)

(** The values that flow through [any]-typed places: transaction metadata,
    node attributes, schema spec flags. *)
Inductive JsValue : Type :=
  | JsUndefined
  | JsNull
  | JsBool (b : bool)
  | JsNumber (z : Z)
  | JsString (s : string).

#[global] Instance JsValue_eq_dec : EqDecision JsValue.
Proof. solve_decision. Defined.

(** [a === b] on primitives. *)
Definition strict_eq (a b : JsValue) : bool := bool_decide (a = b).

(** [a !== b]. *)
Definition strict_neq (a b : JsValue) : bool := negb (strict_eq a b).

(** [!!v]. *)
Definition truthy (v : JsValue) : bool :=
  match v with
  | JsUndefined | JsNull => false
  | JsBool b => b
  | JsNumber z => negb (z =? 0)
  | JsString s => negb (String.eqb s "")
  end.

(** [xs.forEach(callback)] where the callback updates captured variables:
    the captured state is threaded through the calls, in array order. *)
Fixpoint forEach {A St : Type} (xs : list A) (callback : A -> St -> St)
    (s : St) : St :=
  match xs with
  | [] => s
  | x :: rest => forEach rest callback (callback x s)
  end.

(** ** Host engine objects (prosemirror) *)

Record NodeType : Type := mkNodeType {
  type_name : string;
  spec_draggable : JsValue;   (* node.type.spec.draggable *)
  spec_selectable : JsValue   (* node.type.spec.selectable *)
}.

(** A document node.  Nodes are immutable and compared by reference
    ([===]); [node_ref] is the identity of the object. *)
Record ProseMirrorNode : Type := mkNode {
  node_ref : nat;
  node_type : NodeType;
  attrs : gmap string JsValue;
  isLeaf : bool;
  isText : bool
}.

(** [a === b] on node objects. *)
Definition same_node (a b : ProseMirrorNode) : bool :=
  bool_decide (node_ref a = node_ref b).

(** [newNode === this.node] where [newNode] may be [null]. *)
Definition nullable_is_node (found : option ProseMirrorNode)
    (n : ProseMirrorNode) : bool :=
  match found with
  | Some m => same_node m n
  | None => false
  end.

(** [NodeSelection.isSelectable(node)] of prosemirror-state. *)
Definition isSelectable (n : ProseMirrorNode) : bool :=
  negb (isText n) && strict_neq (spec_selectable (node_type n)) (JsBool false).

(** A step map: [map.map(pos, assoc)]. *)
Record StepMap : Type := mkStepMap {
  sm_map : Z -> Z -> Z
}.

Record Doc : Type := mkDoc {
  nodeAt : Z -> option ProseMirrorNode
}.

Record Transaction : Type := mkTransaction {
  docChanged : bool;
  mapping_maps : list StepMap;   (* transaction.mapping.maps *)
  doc : Doc;
  getMeta : string -> JsValue
}.

Record Decoration : Type := mkDecoration { deco_id : nat }.

(** ** DOM elements

    An element handle is its chain of inclusive ancestors: the element
    itself, then its parent, up to the document root.  [el_id] is the
    identity of the DOM object. *)
Record ElementData : Type := mkElementData {
  el_id : nat;
  tagName : string;
  isContentEditable : bool;
  dataDragHandle : bool   (* has the attribute data-drag-handle *)
}.

Record Element : Type := mkElement {
  el_self : ElementData;
  el_ancestors : list ElementData
}.

Definition el_chain (e : Element) : list ElementData :=
  el_self e :: el_ancestors e.

(** [a === b] on elements. *)
Definition same_element (a b : Element) : bool :=
  bool_decide (el_id (el_self a) = el_id (el_self b)).

(** [a.contains(b)]: [b] is [a] or a descendant of [a]. *)
Definition contains (a b : Element) : bool :=
  existsb (fun d => bool_decide (el_id d = el_id (el_self a))) (el_chain b).

(** Suffixes of an ancestor chain, as handles: the element, its parent, ... *)
Fixpoint handles (chain : list ElementData) : list Element :=
  match chain with
  | [] => []
  | d :: up => mkElement d up :: handles up
  end.

(** [target.closest('[data-drag-handle]')]. *)
Definition closest_drag_handle (target : Element) : option Element :=
  List.find (fun e => dataDragHandle (el_self e)) (handles (el_chain target)).

Record Event : Type := mkEvent {
  ev_type : string;
  ev_target : Element
}.

Inductive MutationType : Type :=
  | attributes
  | characterData
  | childList
  | selection.

#[global] Instance MutationType_eq_dec : EqDecision MutationType.
Proof. solve_decision. Defined.

(** [MutationRecord | { type: 'selection', target: Element }]; the node
    lists are empty for a selection mutation. *)
Record Mutation : Type := mkMutation {
  mut_type : MutationType;
  mut_target : Element;
  addedNodes : list Element;
  removedNodes : list Element
}.

(** ** The editor and the node-view instances *)

(** Address of a node-view instance in the store. *)
Abbreviation loc := nat.

Record EditorState : Type := mkEditorState {
  state_doc : Doc
}.

Record EditorView : Type := mkEditorView {
  editable : bool;
  view_state : EditorState
}.

(** The transaction that [state.tr.setNodeMarkup(pos, undefined, attrs)]
    builds and that is handed to [dispatch]: its step puts, at [pos], a node
    of type [type] with attributes [new_attrs] in place of the node that is
    there, keeping its content and marks. *)
Inductive TransactionRequest : Type :=
  | SetNodeMarkup (pos : Z) (type : NodeType)
      (new_attrs : gmap string JsValue).

(** An attribute declaration of a node type ([Attribute] of
    prosemirror-model): whether it has a default, and the default. *)
Record Attribute : Type := mkAttribute {
  hasDefault : bool;
  default : JsValue
}.

(** [given !== undefined] for [given = value[name]]: the key is present and
    its value is not [undefined]. *)
Definition is_given (given : option JsValue) : bool :=
  match given with
  | None | Some JsUndefined => false
  | Some _ => true
  end.

(** What [computeAttrs] stores for one declared attribute. *)
Definition attr_value (attr : Attribute) (given : option JsValue) : JsValue :=
  match given with
  | None | Some JsUndefined => default attr
  | Some v => v
  end.


(** Calls that leave the class: the overridable [mount] and [destroyed]
    hooks (both empty in the base class) and [view.dispatch]. *)
Inductive Effect : Type :=
  | EvMount (l : loc)
  | EvDestroyed (l : loc)
  | EvDispatch (t : TransactionRequest).

Definition is_destroyed_of (l : loc) (e : Effect) : bool :=
  match e with
  | EvDestroyed l' => bool_decide (l' = l)
  | _ => false
  end.

Definition is_mount (e : Effect) : bool :=
  match e with
  | EvMount _ => true
  | _ => false
  end.


Definition count_effects (p : Effect -> bool) (tr : list Effect) : nat :=
  length (List.filter p tr).

Record Extension : Type := mkExtension { ext_name : string }.

(** [NodeViewRendererOptions]; [null] is [None]. *)
Record NodeViewRendererOptions : Type := mkOptions {
  opt_stopEvent : option (Event -> bool);
  opt_update : option (ProseMirrorNode -> list Decoration -> bool)
}.

(** [Partial<NodeViewRendererOptions>]: a key is absent ([None]) or present
    with its value. *)
Record PartialOptions : Type := mkPartialOptions {
  part_stopEvent : option (option (Event -> bool));
  part_update : option (option (ProseMirrorNode -> list Decoration -> bool))
}.

(** One key of [{ ...a, ...b }]. *)
Definition spread_key {V : Type} (a : V) (b : option V) : V :=
  match b with
  | Some v => v
  | None => a
  end.

(** [{ ...this.options, ...options }] with [options] possibly [undefined]. *)
Definition spread_options (base : NodeViewRendererOptions)
    (options : option PartialOptions) : NodeViewRendererOptions :=
  match options with
  | None => base
  | Some o =>
      {| opt_stopEvent := spread_key (opt_stopEvent base) (part_stopEvent o);
         opt_update := spread_key (opt_update base) (part_update o) |}
  end.

(** [{ ...a, ...b }] on attribute objects: keys of [b] win. *)
Definition spread_attrs (a b : gmap string JsValue) : gmap string JsValue :=
  b ∪ a.

(** The field initialiser of [options]. *)
Definition default_options : NodeViewRendererOptions :=
  {| opt_stopEvent := None; opt_update := None |}.

(** Modelled from the spec: the type [NodeViewCacheItem], declared in
    NodeViewCache.ts, which is not among the sources: the "lookup key" handle
    of a cache entry.  The constructor reads its [.instance], [destroy] its
    [.id]. *)
Record NodeViewCacheItem : Type := mkCacheItem {
  item_id : nat;
  item_instance : loc
}.

(** Modelled from the spec: the state of the [NodeViewCache] class, which is
    not among the sources: the registered entries, and a counter from which
    the ids of new entries are taken. *)
Record NodeViewCache : Type := mkCache {
  cache_data : list NodeViewCacheItem;
  cache_next_id : nat
}.

(** Modelled from the spec: what [NodeView] uses of the [Editor] class,
    which is not among the sources: its [nodeViewCache], its event
    subscriptions, [isEditable] and [view]. *)
Record Editor : Type := mkEditor {
  nodeViewCache : NodeViewCache;
  callbacks : list (string * loc);   (* event name, bound instance *)
  isEditable : bool;
  view : EditorView
}.

Inductive Error : Type :=
  | TypeError (what : string)
  | RangeError (what : string)
  | DuplicateCacheEntry.

Inductive Result (A : Type) : Type :=
  | Ok (a : A)
  | Throw (e : Error).
Arguments Ok {A} a.
Arguments Throw {A} e.

(** [computeAttrs(attrs, value)] of prosemirror-model, which
    [type.create(attrs)] applies: the built object has exactly the declared
    names; a name without a given value takes its default, and it is a
    [RangeError] if it has none. *)
Definition computeAttrs (declared : gmap string Attribute)
    (value : gmap string JsValue) : Result (gmap string JsValue) :=
  if forallb
       (fun '(name, attr) => is_given (value !! name) || hasDefault attr)
       (map_to_list declared)
  then Ok (map_imap (fun name attr => Some (attr_value attr (value !! name)))
             declared)
  else Throw (RangeError "No value supplied for attribute").

(** [tr.setNodeMarkup(pos, undefined, attrs)] of prosemirror-transform on
    the document [document]; [typeAttrs] gives [type.attrs], the attribute
    declarations of a node type.  It is a [RangeError] if no node is at
    [pos]; otherwise the type stays the one of the node found, the new node
    is [type.create(attrs)], and the step that puts it there applies, the
    content of the node found being valid for its own type. *)
Definition setNodeMarkup (typeAttrs : NodeType -> gmap string Attribute)
    (document : Doc) (pos : Z) (attrs : gmap string JsValue)
    : Result TransactionRequest :=
  match nodeAt document pos with
  | None => Throw (RangeError "No node at given position")
  | Some found =>
      let type := node_type found in
      match computeAttrs (typeAttrs type) attrs with
      | Throw e => Throw e
      | Ok built => Ok (SetNodeMarkup pos type built)
      end
  end.

Section NodeView.

Context {Component : Type}.

(** Modelled from the spec: the type [NodeViewRendererProps], declared in
    types.ts, which is not among the sources, with the fields that the
    constructor reads.  [props.editor] is the editor of the store. *)
Record NodeViewRendererProps : Type := mkProps {
  props_extension : Extension;
  props_node : ProseMirrorNode;
  props_decorations : list Decoration;
  props_getPos : EditorView -> Z
}.

(** The fields of a [NodeView] object.  [isSame] and [cache] are declared
    without initialiser: they read [undefined] ([None]) until assigned.
    [dom] and [contentDOM] are what the getters return: [null] in the base
    class, an element in the renderers that override them.  The [editor]
    field is the editor of the store. *)
Record NodeView : Type := mkNodeView {
  component : Component;
  extension : Extension;
  node : ProseMirrorNode;
  decorations : list Decoration;
  getPos : EditorView -> Z;
  isDragging : bool;
  options : NodeViewRendererOptions;
  position : Z;
  isSame : option bool;
  cache : option NodeViewCacheItem;
  dom : option Element;
  contentDOM : option Element
}.

Definition set_position (this : NodeView) (p : Z) : NodeView :=
  {| component := component this; extension := extension this;
     node := node this; decorations := decorations this;
     getPos := getPos this; isDragging := isDragging this;
     options := options this; position := p; isSame := isSame this;
     cache := cache this; dom := dom this; contentDOM := contentDOM this |}.

Definition set_isSame (this : NodeView) (b : bool) : NodeView :=
  {| component := component this; extension := extension this;
     node := node this; decorations := decorations this;
     getPos := getPos this; isDragging := isDragging this;
     options := options this; position := position this; isSame := Some b;
     cache := cache this; dom := dom this; contentDOM := contentDOM this |}.

Definition set_isDragging (this : NodeView) (b : bool) : NodeView :=
  {| component := component this; extension := extension this;
     node := node this; decorations := decorations this;
     getPos := getPos this; isDragging := b;
     options := options this; position := position this;
     isSame := isSame this;
     cache := cache this; dom := dom this; contentDOM := contentDOM this |}.

Definition set_cache (this : NodeView) (c : NodeViewCacheItem) : NodeView :=
  {| component := component this; extension := extension this;
     node := node this; decorations := decorations this;
     getPos := getPos this; isDragging := isDragging this;
     options := options this; position := position this;
     isSame := isSame this;
     cache := Some c; dom := dom this; contentDOM := contentDOM this |}.

(** [!this.isSame] on a field that may be unset. *)
Definition isSame_falsy (this : NodeView) : bool :=
  match isSame this with
  | Some true => false
  | _ => true
  end.

(** *** Position tracking *)

(** [onBeforeUpdateState({ transaction })]. *)
Definition onBeforeUpdateState (this : NodeView) (transaction : Transaction)
    : NodeView :=
  if negb (docChanged transaction) then this
  else
    let newPosition :=
      forEach (mapping_maps transaction)
        (fun map newPosition => sm_map map newPosition (-1))
        (position this) in
    let newNode := nodeAt (doc transaction) newPosition in
    let isSame :=
      nullable_is_node newNode (node this)
      && strict_neq (getMeta transaction "uiEvent") (JsString "paste")
      && strict_neq (getMeta transaction "uiEvent") (JsString "drop") in
    set_position (set_isSame this isSame) newPosition.

(** *** The store *)

Record World : Type := mkWorld {
  heap : gmap loc NodeView;   (* node-view objects by address *)
  editor : Editor;
  trace : list Effect
}.

Definition set_heap (w : World) (h : gmap loc NodeView) : World :=
  {| heap := h; editor := editor w; trace := trace w |}.

Definition set_editor (w : World) (e : Editor) : World :=
  {| heap := heap w; editor := e; trace := trace w |}.

Definition set_nodeViewCache (w : World) (c : NodeViewCache) : World :=
  set_editor w
    {| nodeViewCache := c; callbacks := callbacks (editor w);
       isEditable := isEditable (editor w); view := view (editor w) |}.

Definition set_callbacks (w : World) (cbs : list (string * loc)) : World :=
  set_editor w
    {| nodeViewCache := nodeViewCache (editor w); callbacks := cbs;
       isEditable := isEditable (editor w); view := view (editor w) |}.

Definition emit_effect (e : Effect) (w : World) : World :=
  {| heap := heap w; editor := editor w; trace := trace w ++ [e] |}.

(** *** Instance cache *)

(** Modelled from the spec: the test of [NodeViewCache.findNodeAtPosition],
    which is not among the sources: the entry holds an instance whose
    "stored node reference equals the given node" and whose "current
    position equals the given position". *)
Definition entry_matches (h : gmap loc NodeView) (n : ProseMirrorNode)
    (pos : Z) (item : NodeViewCacheItem) : bool :=
  match h !! item_instance item with
  | Some inst => same_node (node inst) n && bool_decide (position inst = pos)
  | None => false
  end.

(** Modelled from the spec: [NodeViewCache.findNodeAtPosition], whose file
    (NodeViewCache.ts) is not among the sources.  It "returns a previously
    registered instance iff its stored node reference equals the given node
    and its current position equals the given position". *)
Definition findNodeAtPosition (c : NodeViewCache) (h : gmap loc NodeView)
    (n : ProseMirrorNode) (pos : Z) : option NodeViewCacheItem :=
  List.find (entry_matches h n pos) (cache_data c).

(** Modelled from the spec: [NodeViewCache.add], whose file is not among the
    sources.  It "registers a new instance; fails (signals a
    programming-error condition) if an entry with the same node+position
    already exists", and returns the new entry. *)
Definition cache_add (c : NodeViewCache) (h : gmap loc NodeView) (l : loc)
    : Result (NodeViewCacheItem * NodeViewCache) :=
  match h !! l with
  | None => Throw (TypeError "instance")
  | Some inst =>
      if existsb (entry_matches h (node inst) (position inst)) (cache_data c)
      then Throw DuplicateCacheEntry
      else
        let item := {| item_id := cache_next_id c; item_instance := l |} in
        Ok (item, {| cache_data := cache_data c ++ [item];
                     cache_next_id := S (cache_next_id c) |})
  end.

(** Modelled from the spec: [NodeViewCache.remove], whose file is not among
    the sources.  It "deregisters; no-op if already absent (idempotent)". *)
Definition cache_remove (c : NodeViewCache) (id : nat) : NodeViewCache :=
  {| cache_data :=
       List.filter (fun item => negb (bool_decide (item_id item = id)))
         (cache_data c);
     cache_next_id := cache_next_id c |}.

(** Whether the cache holds an entry with handle [id]. *)
Definition cache_has_id (c : NodeViewCache) (id : nat) : bool :=
  existsb (fun item => bool_decide (item_id item = id)) (cache_data c).

(** *** Event subscriptions of the editor *)

Definition same_callback (ev : string) (l : loc) (cb : string * loc) : bool :=
  String.eqb (fst cb) ev && bool_decide (snd cb = l).

(** Modelled from the spec: [Editor.on(eventName, handler)], whose file
    (Editor.ts) is not among the sources; the handler is the
    [onBeforeUpdateState] closure of instance [l]. *)
Definition on (ev : string) (l : loc) (w : World) : World :=
  set_callbacks w (callbacks (editor w) ++ [(ev, l)]).

(** Modelled from the spec: [Editor.off(eventName, handler)], whose file is
    not among the sources. *)
Definition off (ev : string) (l : loc) (w : World) : World :=
  set_callbacks w
    (List.filter (fun cb => negb (same_callback ev l cb))
       (callbacks (editor w))).

(** Runs the [onBeforeUpdateState] closure of the instance at [l]. *)
Definition call_onBeforeUpdateState (transaction : Transaction) (l : loc)
    (w : World) : World :=
  match heap w !! l with
  | Some this =>
      set_heap w (<[l := onBeforeUpdateState this transaction]> (heap w))
  | None => w
  end.

(** Modelled from the spec: the editor emitting ['beforeUpdateState'], whose
    file is not among the sources: every subscribed handler is invoked "in
    subscription order". *)
Definition emit_beforeUpdateState (transaction : Transaction) (w : World)
    : World :=
  forEach (callbacks (editor w))
    (fun cb w' =>
       if String.eqb (fst cb) "beforeUpdateState"
       then call_onBeforeUpdateState transaction (snd cb) w'
       else w')
    w.

(** *** Construction and teardown *)

(** The fields of [this] when the constructor reaches the cache lookup:
    the field initialisers, then the assignments of the constructor body. *)
Definition initial_instance (component : Component)
    (props : NodeViewRendererProps) (options : option PartialOptions)
    (ed : Editor) : NodeView :=
  {| component := component;
     options := spread_options default_options options;
     extension := props_extension props;
     node := props_node props;
     decorations := props_decorations props;
     getPos := props_getPos props;
     position := props_getPos props (view ed);
     isDragging := false;
     isSame := None;
     cache := None;
     dom := None;
     contentDOM := None |}.

(** [new NodeView(component, props, options)]: the result is the address
    of the object the [new] expression evaluates to. *)
Definition constructor (component : Component)
    (props : NodeViewRendererProps) (options : option PartialOptions)
    (w : World) : Result (loc * World) :=
  let l := fresh (base.dom (heap w)) in
  let this := initial_instance component props options (editor w) in
  let w := set_heap w (<[l := this]> (heap w)) in
  match findNodeAtPosition (nodeViewCache (editor w)) (heap w)
          (node this) (position this) with
  | Some cache => Ok (item_instance cache, w)
  | None =>
      let w := on "beforeUpdateState" l w in
      let w := emit_effect (EvMount l) w in
      match cache_add (nodeViewCache (editor w)) (heap w) l with
      | Throw e => Throw e
      | Ok (item, c) =>
          let w := set_nodeViewCache w c in
          Ok (l, set_heap w (<[l := set_cache this item]> (heap w)))
      end
  end.

(** [destroy()] on the instance at [l]. *)
Definition destroy (l : loc) (w : World) : Result World :=
  match heap w !! l with
  | None => Throw (TypeError "this")
  | Some this =>
      if isSame_falsy this then
        match cache this with
        | None => Throw (TypeError "this.cache.id")
        | Some c =>
            let w := set_nodeViewCache w
                       (cache_remove (nodeViewCache (editor w)) (item_id c)) in
            let w := off "beforeUpdateState" l w in
            Ok (emit_effect (EvDestroyed l) w)
        end
      else Ok w
  end.

(** Every cache entry points to an allocated instance. *)
Definition cache_allocated (w : World) : bool :=
  forallb (fun item => bool_decide (is_Some (heap w !! item_instance item)))
    (cache_data (nodeViewCache (editor w))).

(** *** Event mediation *)

(** What a call of [stopEvent] does besides returning. *)
Record StopEventOutcome : Type := mkOutcome {
  returned : bool;
  defaultPrevented : bool;        (* event.preventDefault() was called *)
  this_after : NodeView;          (* the instance, with isDragging updated *)
  documentListeners : list string (* one-shot listeners added to document *)
}.

Definition isFormControl (target : Element) : bool :=
  existsb (String.eqb (tagName (el_self target)))
    ["INPUT"; "BUTTON"; "SELECT"; "TEXTAREA"]%string.

(** [this.contentDOM?.contains(target)], as a condition. *)
Definition contentDOM_contains (this : NodeView) (target : Element) : bool :=
  match contentDOM this with
  | Some c => contains c target
  | None => false
  end.

(** [stopEvent(event)]; [ed] is [this.editor]. *)
Definition stopEvent (this : NodeView) (ed : Editor) (event : Event)
    : StopEventOutcome :=
  match dom this with
  | None => mkOutcome false false this []
  | Some root =>
      match opt_stopEvent (options this) with
      | Some override => mkOutcome (override event) false this []
      | None =>
          let target := ev_target event in
          let isInElement :=
            contains root target && negb (contentDOM_contains this target) in
          if negb isInElement then mkOutcome false false this []
          else
            let isInput :=
              isFormControl target || isContentEditable (el_self target) in
            if isInput then mkOutcome true false this []
            else
              let isEditable := isEditable ed in
              let isDragging := isDragging this in
              let isDraggable :=
                truthy (spec_draggable (node_type (node this))) in
              let isSelectable := isSelectable (node this) in
              let isCopyEvent := String.eqb (ev_type event) "copy" in
              let isPasteEvent := String.eqb (ev_type event) "paste" in
              let isCutEvent := String.eqb (ev_type event) "cut" in
              let isClickEvent := String.eqb (ev_type event) "mousedown" in
              let isDragEvent :=
                String.prefix "drag" (ev_type event)
                || String.eqb (ev_type event) "drop" in
              let prevented := negb isDraggable && isSelectable && isDragEvent in
              if isDraggable && isDragEvent && negb isDragging
              then mkOutcome false true this []
              else
                let armed :=
                  if isDraggable && isEditable && negb isDragging
                     && isClickEvent
                  then
                    match closest_drag_handle target with
                    | Some dragHandle =>
                        same_element root dragHandle
                        || contains root dragHandle
                    | None => false
                    end
                  else false in
                let this' :=
                  if armed then set_isDragging this true else this in
                let listeners :=
                  if armed then ["dragend"; "mouseup"]%string else [] in
                if isDragging || isCopyEvent || isPasteEvent || isCutEvent
                   || (isClickEvent && isSelectable)
                then mkOutcome false prevented this' listeners
                else mkOutcome true prevented this' listeners
      end
  end.

(** [ignoreMutation(mutation)]; [isiOS] is what the [isiOS()] utility
    (utilities/isiOS.ts, not among the sources) answers on the running
    platform. *)
Definition ignoreMutation (this : NodeView) (isiOS : bool)
    (mutation : Mutation) : bool :=
  match dom this, contentDOM this with
  | Some root, Some content =>
      if isLeaf (node this) then true
      else if bool_decide (mut_type mutation = selection) then false
      else
        let afterQuirk :=
          if same_element content (mut_target mutation)
             && bool_decide (mut_type mutation = attributes)
          then true
          else if contains content (mut_target mutation) then false
          else true in
        if contains root (mut_target mutation)
           && bool_decide (mut_type mutation = childList) && isiOS
        then
          let changedNodes := addedNodes mutation ++ removedNodes mutation in
          if forallb (fun n => isContentEditable (el_self n)) changedNodes
          then false
          else afterQuirk
        else afterQuirk
  | _, _ => true
  end.

(** *** Attribute update *)

(** [this.editor.view.dispatch(transaction)]: handed to the host. *)
Definition dispatch (t : TransactionRequest) (w : World) : World :=
  emit_effect (EvDispatch t) w.

(** [updateAttributes(attributes)]; [typeAttrs] gives the attribute
    declarations of the node types of the schema.  An exception thrown while
    the transaction is built leaves [view.dispatch] uncalled. *)
Definition updateAttributes (typeAttrs : NodeType -> gmap string Attribute)
    (this : NodeView) (attributes : gmap string JsValue) (w : World)
    : Result World :=
  if negb (editable (view (editor w))) then Ok w
  else
    let state := view_state (view (editor w)) in
    let pos := getPos this (view (editor w)) in
    match setNodeMarkup typeAttrs (state_doc state) pos
            (spread_attrs (attrs (node this)) attributes) with
    | Throw e => Throw e
    | Ok transaction => Ok (dispatch transaction w)
    end.

End NodeView.

(** ** Drag initiation *)

(** What [event.target] of a drag event can be: an element, or a text node
    ([nodeType === 3]), given by its chain of ancestor elements (its
    [parentElement] first; empty when it has none). *)
Inductive EventTarget : Type :=
  | TargetElement (e : Element)
  | TargetText (parents : list ElementData).

(** The inclusive ancestors of a target that are elements. *)
Definition target_chain (t : EventTarget) : list ElementData :=
  match t with
  | TargetElement e => el_chain e
  | TargetText parents => parents
  end.

(** [a.contains(target)] for a target that may be a text node. *)
Definition contains_target (a : Element) (t : EventTarget) : bool :=
  existsb (fun d => bool_decide (el_id d = el_id (el_self a)))
    (target_chain t).

(** [target.parentElement] of a text node; [null] is [None]. *)
Definition parentElement (parents : list ElementData) : option Element :=
  match parents with
  | [] => None
  | d :: up => Some (mkElement d up)
  end.

Section DragStart.

Context {Component : Type}.

(** JavaScript numbers and the two operations that [onDragStart] applies to
    them. *)
Context {num : Type}.
Variables (num_zero : num) (num_add num_sub : num -> num -> num).

(** What [onDragStart] reads of a [DOMRect]. *)
Record DOMRect : Type := mkRect {
  rect_x : num;
  rect_y : num
}.

(** What [onDragStart] reads of a [DragEvent]; [hasDataTransfer] tells
    whether [event.dataTransfer] is an object rather than [null]. *)
Record DragEvent : Type := mkDragEvent {
  drag_target : EventTarget;
  offsetX : num;
  offsetY : num;
  hasDataTransfer : bool
}.

(** [NodeSelection.create(doc, pos)]. *)
Record NodeSelectionRequest : Type := mkNodeSelection {
  sel_doc : Doc;
  sel_pos : Z
}.

(** What a call of [onDragStart] does: the arguments of [setDragImage], and
    the node selection of the [setSelection] transaction handed to
    [view.dispatch]. *)
Record DragStartOutcome : Type := mkDragOutcome {
  dragImage : option (Element * num * num);
  dispatchedSelection : option NodeSelectionRequest
}.

(** The drag handle element that [onDragStart] looks up. *)
Definition dragHandleOf (target : EventTarget) : option Element :=
  match target with
  | TargetText parents =>
      match parentElement parents with
      | Some parent => closest_drag_handle parent
      | None => None
      end
  | TargetElement e => closest_drag_handle e
  end.

(** [onDragStart(event)]; [ed] is [this.editor], [getBoundingClientRect]
    the layout of the page. *)
Definition onDragStart (this : @NodeView Component) (ed : Editor)
    (getBoundingClientRect : Element -> DOMRect) (event : DragEvent)
    : DragStartOutcome :=
  let view := view ed in
  let target := drag_target event in
  let dragHandle := dragHandleOf target in
  match dom this with
  | None => mkDragOutcome None None
  | Some root =>
      if match contentDOM this with
         | Some content => contains_target content target
         | None => false
         end
      then mkDragOutcome None None
      else
        match dragHandle with
        | None => mkDragOutcome None None
        | Some dragHandle =>
            let '(x, y) :=
              if negb (same_element root dragHandle) then
                let domBox := getBoundingClientRect root in
                let handleBox := getBoundingClientRect dragHandle in
                (num_add (num_sub (rect_x handleBox) (rect_x domBox))
                   (offsetX event),
                 num_add (num_sub (rect_y handleBox) (rect_y domBox))
                   (offsetY event))
              else (num_zero, num_zero) in
            let selection :=
              mkNodeSelection (state_doc (view_state view))
                (getPos this view) in
            mkDragOutcome
              (if hasDataTransfer event then Some (root, x, y) else None)
              (Some selection)
        end
  end.

End DragStart.

(** ** Concrete objects used to run the model *)

Module Sample.

Definition cardType : NodeType :=
  {| type_name := "card"; spec_draggable := JsBool true;
     spec_selectable := JsUndefined |}.

Definition imageType : NodeType :=
  {| type_name := "image"; spec_draggable := JsUndefined;
     spec_selectable := JsUndefined |}.

Definition card : ProseMirrorNode :=
  {| node_ref := 1; node_type := cardType;
     attrs := {[ "count" := JsNumber 0; "title" := JsString "a" ]};
     isLeaf := false; isText := false |}.

Definition image : ProseMirrorNode :=
  {| node_ref := 2; node_type := imageType;
     attrs := {[ "src" := JsString "a.png" ]};
     isLeaf := true; isText := false |}.

(** The step map of inserting two characters at position 3. *)
Definition insert2at3 : StepMap :=
  {| sm_map := fun pos assoc =>
       if pos <? 3 then pos
       else if pos =? 3 then (if assoc <? 0 then 3 else 5)
       else pos + 2 |}.

Definition cardAt (p : Z) : Doc :=
  {| nodeAt := fun q => if q =? p then Some card else None |}.

Definition noMeta : string -> JsValue := fun _ => JsUndefined.

Definition uiEvent (kind : string) : string -> JsValue :=
  fun key => if String.eqb key "uiEvent" then JsString kind else JsUndefined.

Definition typing : Transaction :=
  {| docChanged := true; mapping_maps := [insert2at3; insert2at3];
     doc := cardAt 9; getMeta := noMeta |}.

Definition pasting : Transaction :=
  {| docChanged := true; mapping_maps := [insert2at3; insert2at3];
     doc := cardAt 9; getMeta := uiEvent "paste" |}.

Definition selecting : Transaction :=
  {| docChanged := false; mapping_maps := [];
     doc := cardAt 5; getMeta := noMeta |}.

(** A card view bound at position 5. *)
Definition cardView : @NodeView string :=
  {| component := "CardComponent"; extension := mkExtension "card";
     node := card; decorations := []; getPos := fun _ => 5;
     isDragging := false; options := default_options; position := 5;
     isSame := None; cache := Some (mkCacheItem 0 0);
     dom := None; contentDOM := None |}.

(** The same view after a transaction replaced its node. *)
Definition replacedView : @NodeView string := set_isSame cardView false.

(** The same view after a transaction that merely moved its node. *)
Definition movedView : @NodeView string :=
  onBeforeUpdateState cardView typing.


Definition editableView : EditorView :=
  {| editable := true; view_state := mkEditorState (cardAt 5) |}.

Definition emptyEditor : Editor :=
  {| nodeViewCache := {| cache_data := []; cache_next_id := 0 |};
     callbacks := []; isEditable := true; view := editableView |}.

(** An editor in which the view at address 0 is registered and subscribed. *)
Definition oneViewEditor (v : EditorView) : Editor :=
  {| nodeViewCache :=
       {| cache_data := [mkCacheItem 0 0]; cache_next_id := 1 |};
     callbacks := [("beforeUpdateState"%string, 0%nat)];
     isEditable := editable v; view := v |}.

Definition worldOf (inst : @NodeView string) (v : EditorView) : World :=
  {| heap := {[ 0%nat := inst ]}; editor := oneViewEditor v;
     trace := [EvMount 0] |}.

Definition emptyWorld : @World string :=
  {| heap := ∅; editor := emptyEditor; trace := [] |}.

Definition cardProps : NodeViewRendererProps :=
  {| props_extension := mkExtension "card"; props_node := card;
     props_decorations := []; props_getPos := fun _ => 5 |}.

Definition otherProps : NodeViewRendererProps :=
  {| props_extension := mkExtension "card"; props_node := card;
     props_decorations := [mkDecoration 7]; props_getPos := fun _ => 5 |}.

Definition otherOptions : option PartialOptions :=
  Some {| part_stopEvent := Some (Some (fun _ => true));
          part_update := None |}.

(** The DOM around a rendered card:
    body > root > { content > paragraph, caption, input, label, handle },
    and a paragraph next to the root. *)
Definition bodyData : ElementData := mkElementData 0 "BODY" false false.
Definition rootData : ElementData := mkElementData 1 "DIV" false false.
Definition contentData : ElementData := mkElementData 2 "DIV" true false.
Definition paragraphData : ElementData := mkElementData 3 "P" true false.
Definition captionData : ElementData := mkElementData 4 "SPAN" true false.
Definition inputData : ElementData := mkElementData 5 "INPUT" false false.
Definition labelData : ElementData := mkElementData 6 "SPAN" false false.
Definition handleData : ElementData := mkElementData 7 "SPAN" false true.
Definition outsideData : ElementData := mkElementData 8 "P" true false.

Definition rootEl : Element := mkElement rootData [bodyData].
Definition contentEl : Element := mkElement contentData [rootData; bodyData].
Definition paragraphEl : Element :=
  mkElement paragraphData [contentData; rootData; bodyData].
Definition captionEl : Element := mkElement captionData [rootData; bodyData].
Definition inputEl : Element := mkElement inputData [rootData; bodyData].
Definition labelEl : Element := mkElement labelData [rootData; bodyData].
Definition handleEl : Element := mkElement handleData [rootData; bodyData].
Definition outsideEl : Element := mkElement outsideData [bodyData].

Definition withDom (inst : @NodeView string) (root content : option Element)
    : @NodeView string :=
  {| component := component inst; extension := extension inst;
     node := node inst; decorations := decorations inst;
     getPos := getPos inst; isDragging := isDragging inst;
     options := options inst; position := position inst;
     isSame := isSame inst; cache := cache inst;
     dom := root; contentDOM := content |}.

(** A rendered card, with a root and a content element. *)
Definition renderedCard : @NodeView string :=
  withDom cardView (Some rootEl) (Some contentEl).

(** A card rendered without a content element. *)
Definition opaqueCard : @NodeView string :=
  withDom cardView (Some rootEl) None.

(** A rendered image: a leaf node. *)
Definition renderedImage : @NodeView string :=
  {| component := "ImageComponent"; extension := mkExtension "image";
     node := image; decorations := []; getPos := fun _ => 2;
     isDragging := false; options := default_options; position := 2;
     isSame := None; cache := Some (mkCacheItem 1 1);
     dom := Some rootEl; contentDOM := Some contentEl |}.

Definition selectionIn (target : Element) : Mutation :=
  {| mut_type := selection; mut_target := target;
     addedNodes := []; removedNodes := [] |}.


Definition cardWorld : @World string := worldOf cardView editableView.
Definition movedWorld : @World string := worldOf movedView editableView.
Definition replacedWorld : @World string := worldOf replacedView editableView.

Definition clickCaption : Event := mkEvent "mousedown" captionEl.
Definition clickOutside : Event := mkEvent "mousedown" outsideEl.
Definition copyLabel : Event := mkEvent "copy" labelEl.
Definition mousedownParagraph : Event := mkEvent "mousedown" paragraphEl.
Definition clickParagraph : Event := mkEvent "click" paragraphEl.
Definition copyInput : Event := mkEvent "copy" inputEl.

(** A page layout: the root at (100, 40), its handle at (110, 48). *)
Definition layout (e : Element) : @DOMRect Z :=
  if bool_decide (el_id (el_self e) = 7%nat) then mkRect 110 48
  else if bool_decide (el_id (el_self e) = 1%nat) then mkRect 100 40
  else mkRect 0 0.

(** A card whose root element is itself the drag handle. *)
Definition gripData : ElementData := mkElementData 9 "DIV" false true.
Definition gripEl : Element := mkElement gripData [bodyData].
Definition gripLabelEl : Element := mkElement labelData [gripData; bodyData].
Definition gripCard : @NodeView string :=
  withDom cardView (Some gripEl) None.

Definition dragFromHandle : @DragEvent Z :=
  mkDragEvent (TargetElement handleEl) 3 2 true.
Definition dragFromHandleText : @DragEvent Z :=
  mkDragEvent (TargetText [handleData; rootData; bodyData]) 3 2 true.
Definition dragFromGripLabel : @DragEvent Z :=
  mkDragEvent (TargetElement gripLabelEl) 3 2 true.
Definition dragFromParagraph : @DragEvent Z :=
  mkDragEvent (TargetElement paragraphEl) 3 2 true.

Definition mousedownHandle : Event := mkEvent "mousedown" handleEl.
Definition dragstartLabel : Event := mkEvent "dragstart" labelEl.
Definition keydownLabel : Event := mkEvent "keydown" labelEl.
Definition pasteLabel : Event := mkEvent "paste" labelEl.

Definition draggingCard : @NodeView string :=
  set_isDragging renderedCard true.

Definition attributesOn (target : Element) : Mutation :=
  {| mut_type := attributes; mut_target := target;
     addedNodes := []; removedNodes := [] |}.

Definition childListOn (target : Element) (added : list Element) : Mutation :=
  {| mut_type := childList; mut_target := target;
     addedNodes := added; removedNodes := [] |}.

(** A transaction that carries only the second insertion. *)
Definition typingMore : Transaction :=
  {| docChanged := true; mapping_maps := [insert2at3];
     doc := cardAt 11; getMeta := noMeta |}.

(** A transaction after which no node starts at the remapped position. *)
Definition deleting : Transaction :=
  {| docChanged := true; mapping_maps := [insert2at3];
     doc := mkDoc (fun _ => None); getMeta := noMeta |}.

(** What the host passes when it asks again for a view of the card, now
    at position 9. *)
Definition movedProps : NodeViewRendererProps :=
  {| props_extension := mkExtension "card"; props_node := card;
     props_decorations := []; props_getPos := fun _ => 9 |}.

(** The attributes that the sample node types declare: a card has a
    [count] (default 0) and a [title] (default empty), an image a [src]
    without default. *)
Definition typeAttrs (type : NodeType) : gmap string Attribute :=
  if String.eqb (type_name type) "card"
  then {[ "count" := mkAttribute true (JsNumber 0);
          "title" := mkAttribute true (JsString "") ]}
  else {[ "src" := mkAttribute false JsUndefined ]}.


(** A locked view in whose document no node starts at position 5. *)
Definition lockedStaleWorld : @World string :=
  worldOf cardView
    {| editable := false; view_state := mkEditorState (cardAt 7) |}.

(** A patch that resets the count. *)
Definition resetCount : gmap string JsValue := {[ "count" := JsUndefined ]}.

(** An image view and an editable world with the image at position 2. *)
Definition imageWorld : @World string :=
  {| heap := {[ 0%nat := renderedImage ]};
     editor := oneViewEditor
                 {| editable := true;
                    view_state :=
                      mkEditorState
                        (mkDoc (fun q => if q =? 2 then Some image
                                         else None)) |};
     trace := [EvMount 0] |}.

Definition resetSrc : gmap string JsValue := {[ "src" := JsUndefined ]}.

End Sample.

(** ** Position tracking: properties *)

Lemma forEach_fold_left {A St : Type} (xs : list A) (f : A -> St -> St)
    (s : St) :
  forEach xs f s = fold_left (fun acc x => f x acc) xs s.
Proof.
  revert s. induction xs as [|x rest IH]; intros s; simpl; [done|].
  apply IH.
Qed.

Lemma forEach_app {A St : Type} (xs ys : list A) (f : A -> St -> St)
    (s : St) :
  forEach (xs ++ ys) f s = forEach ys f (forEach xs f s).
Proof.
  revert s. induction xs as [|x rest IH]; intros s; simpl; [done|].
  apply IH.
Qed.

Lemma strict_neq_spec (a b : JsValue) : strict_neq a b = true <-> a <> b.
Proof.
  unfold strict_neq, strict_eq. rewrite negb_true_iff, bool_decide_eq_false.
  done.
Qed.

Lemma nullable_is_node_spec (found : option ProseMirrorNode)
    (n : ProseMirrorNode) :
  nullable_is_node found n = true <->
  exists m, found = Some m /\ node_ref m = node_ref n.
Proof.
  destruct found as [m|]; simpl.
  - unfold same_node. rewrite bool_decide_eq_true. split.
    + intros H. exists m. done.
    + intros (m' & Hm & Href). by inversion Hm; subst.
  - split; [done|]. by intros (m & Hm & _).
Qed.

(** C1: after a document-changing transaction the stored flag is [true]
    exactly when the node at the remapped position is the bound node object
    and the ['uiEvent'] metadata is neither ['paste'] nor ['drop']; the flag
    is always a boolean afterwards, and a ['paste'] transaction stores
    [false] whatever node is found. *)
Theorem onBeforeUpdateState_isSame {Component : Type}
    (this : @NodeView Component) (transaction : Transaction) :
  docChanged transaction = true ->
  let after := onBeforeUpdateState this transaction in
  (isSame after = Some true <->
     (exists found,
         nodeAt (doc transaction) (position after) = Some found
         /\ node_ref found = node_ref (node this))
     /\ getMeta transaction "uiEvent" <> JsString "paste"
     /\ getMeta transaction "uiEvent" <> JsString "drop")
  /\ (isSame after = Some true \/ isSame after = Some false)
  /\ (getMeta transaction "uiEvent" = JsString "paste" ->
      isSame after = Some false).
Proof.
  intros Hchanged. unfold onBeforeUpdateState. rewrite Hchanged. simpl.
  set (newPosition := forEach _ _ _).
  set (flag := _ && _ && _).
  split; [|split].
  - transitivity (flag = true).
    { split; [by intros [= ->] | by intros ->]. }
    unfold flag. rewrite !andb_true_iff, !strict_neq_spec.
    rewrite nullable_is_node_spec. tauto.
  - destruct flag; [by left | by right].
  - intros Hpaste. f_equal. unfold flag. rewrite Hpaste.
    by rewrite andb_false_r.
Qed.

Lemma onBeforeUpdateState_isSame_witness :
  docChanged Sample.pasting = true
  /\ nodeAt (doc Sample.pasting)
       (position (onBeforeUpdateState Sample.cardView Sample.pasting))
     = Some (node Sample.cardView)
  /\ isSame (onBeforeUpdateState Sample.cardView Sample.pasting) = Some false.
Proof.
  split; [reflexivity|]. split; [reflexivity|].
  destruct (onBeforeUpdateState_isSame Sample.cardView Sample.pasting eq_refl)
    as (_ & _ & Hpaste).
  apply Hpaste. reflexivity.
Defined.

(** C4: after a document-changing transaction the stored position is the
    left fold of the transaction's maps over the old position, each applied
    with bias [-1], for a sequence of any length. *)
Theorem onBeforeUpdateState_position {Component : Type}
    (this : @NodeView Component) (transaction : Transaction) :
  docChanged transaction = true ->
  position (onBeforeUpdateState this transaction)
  = fold_left (fun pos map => sm_map map pos (-1))
      (mapping_maps transaction) (position this).
Proof.
  intros Hchanged. unfold onBeforeUpdateState. rewrite Hchanged. simpl.
  apply forEach_fold_left.
Qed.

Lemma onBeforeUpdateState_position_witness :
  docChanged Sample.typing = true
  /\ position (onBeforeUpdateState Sample.cardView Sample.typing)
     = fold_left (fun pos map => sm_map map pos (-1))
         [Sample.insert2at3; Sample.insert2at3] 5
  /\ position (onBeforeUpdateState Sample.cardView Sample.typing) = 9.
Proof.
  split; [reflexivity|]. split.
  - apply (onBeforeUpdateState_position Sample.cardView Sample.typing).
    reflexivity.
  - reflexivity.
Defined.


(** ** Construction and teardown: properties *)

Lemma find_ext_elem {A : Type} (f g : A -> bool) (xs : list A) :
  (forall x, x ∈ xs -> f x = g x) -> List.find f xs = List.find g xs.
Proof.
  induction xs as [|x rest IH]; intros Hfg; simpl; [done|].
  rewrite <- (Hfg x) by left.
  destruct (f x); [done|]. apply IH. intros y Hy. apply Hfg. by right.
Qed.

Lemma find_none_existsb {A : Type} (f : A -> bool) (xs : list A) :
  List.find f xs = None -> existsb f xs = false.
Proof.
  induction xs as [|x rest IH]; simpl; [done|].
  destruct (f x); [done|]. exact IH.
Qed.

Lemma filter_twice {A : Type} (f : A -> bool) (xs : list A) :
  List.filter f (List.filter f xs) = List.filter f xs.
Proof.
  induction xs as [|x rest IH]; simpl; [done|].
  destruct (f x) eqn:Hfx; simpl; [rewrite Hfx|]; by rewrite ?IH.
Qed.

Lemma count_effects_snoc (p : Effect -> bool) (tr : list Effect)
    (e : Effect) :
  count_effects p (tr ++ [e])
  = (count_effects p tr + (if p e then 1 else 0))%nat.
Proof.
  unfold count_effects. rewrite List.filter_app, length_app. simpl.
  by destruct (p e).
Qed.

Lemma forEach_neutral {A St : Type} (xs : list A) (f : A -> St -> St)
    (s : St) :
  (forall x s', f x s' = s') -> forEach xs f s = s.
Proof.
  intros Hf. revert s. induction xs as [|x rest IH]; intros s; simpl; [done|].
  rewrite Hf. apply IH.
Qed.

Section Lifecycle.

Context {Component : Type}.
Implicit Types (w : @World Component) (this : @NodeView Component).
Implicit Types (h : gmap nat (@NodeView Component)).

Lemma cache_allocated_elem w item :
  cache_allocated w = true ->
  item ∈ cache_data (nodeViewCache (editor w)) ->
  is_Some (heap w !! item_instance item).
Proof.
  unfold cache_allocated. rewrite forallb_forall. intros Hall Hin.
  apply list_elem_of_In in Hin. apply Hall in Hin.
  by apply bool_decide_eq_true in Hin.
Qed.

Lemma fresh_unallocated h : h !! fresh (base.dom h) = None.
Proof. apply not_elem_of_dom. apply is_fresh. Qed.

(** Allocating a new object does not change what an entry that points to
    an allocated instance matches. *)
Lemma entry_matches_alloc h this n pos item :
  is_Some (h !! item_instance item) ->
  entry_matches (<[fresh (base.dom h) := this]> h) n pos item
  = entry_matches h n pos item.
Proof.
  intros [inst Hinst]. unfold entry_matches.
  rewrite lookup_insert_ne; [done|].
  intros Heq. rewrite <- Heq, fresh_unallocated in Hinst. done.
Qed.

Lemma findNodeAtPosition_alloc w this n pos :
  cache_allocated w = true ->
  findNodeAtPosition (nodeViewCache (editor w))
    (<[fresh (base.dom (heap w)) := this]> (heap w)) n pos
  = findNodeAtPosition (nodeViewCache (editor w)) (heap w) n pos.
Proof.
  intros Halloc. unfold findNodeAtPosition. apply find_ext_elem.
  intros item Hin. apply entry_matches_alloc.
  by apply cache_allocated_elem.
Qed.

Lemma findNodeAtPosition_elem c h n pos item :
  findNodeAtPosition c h n pos = Some item ->
  item ∈ cache_data c /\ entry_matches h n pos item = true.
Proof.
  unfold findNodeAtPosition. intros Hfind.
  apply find_some in Hfind as [Hin Hmatch].
  by rewrite list_elem_of_In.
Qed.

(** The reuse path: on a cache hit the constructor only allocates the
    object it then abandons. *)
Lemma constructor_reuse component props options w item :
  cache_allocated w = true ->
  findNodeAtPosition (nodeViewCache (editor w)) (heap w)
    (props_node props) (props_getPos props (view (editor w))) = Some item ->
  constructor component props options w
  = Ok (item_instance item,
        set_heap w (<[fresh (base.dom (heap w))
                      := initial_instance component props options (editor w)]>
                      (heap w))).
Proof.
  intros Halloc Hfind. unfold constructor. simpl.
  rewrite findNodeAtPosition_alloc by done. by rewrite Hfind.
Qed.

(** The creation path: no entry matches, so the constructor subscribes,
    mounts and registers the new object; [add] cannot fail there. *)
Lemma constructor_create component props options w :
  cache_allocated w = true ->
  findNodeAtPosition (nodeViewCache (editor w)) (heap w)
    (props_node props) (props_getPos props (view (editor w))) = None ->
  let l := fresh (base.dom (heap w)) in
  let item := mkCacheItem (cache_next_id (nodeViewCache (editor w))) l in
  constructor component props options w
  = Ok (l,
        {| heap :=
             <[l := set_cache
                      (initial_instance component props options (editor w))
                      item]> (heap w);
           editor :=
             {| nodeViewCache :=
                  {| cache_data :=
                       cache_data (nodeViewCache (editor w)) ++ [item];
                     cache_next_id :=
                       S (cache_next_id (nodeViewCache (editor w))) |};
                callbacks :=
                  callbacks (editor w) ++ [("beforeUpdateState"%string, l)];
                isEditable := isEditable (editor w);
                view := view (editor w) |};
           trace := trace w ++ [EvMount l] |}).
Proof.
  intros Halloc Hfind l item. unfold constructor. simpl.
  rewrite findNodeAtPosition_alloc by done. rewrite Hfind.
  unfold cache_add. simpl. rewrite lookup_insert_eq. simpl.
  rewrite <- (findNodeAtPosition_alloc w
    (initial_instance component props options (editor w))) in Hfind by done.
  apply find_none_existsb in Hfind. rewrite Hfind.
  unfold set_heap, set_nodeViewCache, set_editor. simpl.
  by rewrite insert_insert_eq.
Qed.

Lemma call_handler_quiet transaction l w :
  docChanged transaction = false ->
  call_onBeforeUpdateState transaction l w = w.
Proof.
  intros Hsame. unfold call_onBeforeUpdateState.
  destruct (heap w !! l) as [this|] eqn:Hl; [|done].
  unfold onBeforeUpdateState. rewrite Hsame. simpl.
  rewrite insert_id by done. by destruct w.
Qed.

Lemma emit_quiet transaction w :
  docChanged transaction = false ->
  emit_beforeUpdateState transaction w = w.
Proof.
  intros Hsame. unfold emit_beforeUpdateState. apply forEach_neutral.
  intros cb w'. destruct (String.eqb _ _); [|done].
  by apply call_handler_quiet.
Qed.

Lemma emit_all_quiet (transactions : list Transaction) w :
  Forall (fun t => docChanged t = false) transactions ->
  forEach transactions emit_beforeUpdateState w = w.
Proof.
  intros Hall. revert w.
  induction Hall as [|t rest Ht _ IH]; intros w; simpl; [done|].
  rewrite emit_quiet by done. apply IH.
Qed.

Lemma cache_remove_has_id c id : cache_has_id (cache_remove c id) id = false.
Proof.
  unfold cache_has_id, cache_remove. simpl.
  induction (cache_data c) as [|item rest IH]; simpl; [done|].
  destruct (bool_decide (item_id item = id)) eqn:Hid; simpl; [done|].
  by rewrite Hid.
Qed.

Lemma cache_remove_twice c id :
  cache_remove (cache_remove c id) id = cache_remove c id.
Proof. unfold cache_remove. simpl. by rewrite filter_twice. Qed.

Lemma cache_remove_elem c id item :
  item ∈ cache_data (cache_remove c id) ->
  item ∈ cache_data c /\ item_id item <> id.
Proof.
  unfold cache_remove. simpl. rewrite !list_elem_of_In, filter_In.
  rewrite negb_true_iff, bool_decide_eq_false. done.
Qed.

Lemma off_unsubscribed ev l w :
  (ev, l) ∉ callbacks (editor (off ev l w)).
Proof.
  unfold off. simpl. rewrite list_elem_of_In, filter_In.
  intros [_ Hkeep]. unfold same_callback in Hkeep. simpl in Hkeep.
  rewrite String.eqb_refl, bool_decide_true in Hkeep by done. done.
Qed.

(** The preservation path of [destroy]. *)
Lemma destroy_preserved l w this :
  heap w !! l = Some this ->
  isSame this = Some true ->
  destroy l w = Ok w.
Proof.
  intros Hl Hflag. unfold destroy, isSame_falsy. by rewrite Hl, Hflag.
Qed.

(** The teardown path of [destroy]. *)
Lemma destroy_teardown l w this item :
  heap w !! l = Some this ->
  isSame this <> Some true ->
  cache this = Some item ->
  destroy l w
  = Ok (emit_effect (EvDestroyed l)
          (off "beforeUpdateState" l
             (set_nodeViewCache w
                (cache_remove (nodeViewCache (editor w)) (item_id item))))).
Proof.
  intros Hl Hflag Hcache. unfold destroy, isSame_falsy. rewrite Hl, Hcache.
  by destruct (isSame this) as [[]|].
Qed.

(** [cache_allocated] is an invariant of the store: construction, teardown
    and the transaction hook keep it. *)
Lemma cache_allocated_spec w :
  cache_allocated w = true <->
  forall item, item ∈ cache_data (nodeViewCache (editor w)) ->
               is_Some (heap w !! item_instance item).
Proof.
  split; [intros Halloc item; by apply cache_allocated_elem|].
  intros Hall. unfold cache_allocated. apply forallb_forall.
  intros item Hin. apply bool_decide_eq_true, Hall.
  by apply list_elem_of_In.
Qed.

Lemma constructor_keeps_cache_allocated component props options w l w' :
  cache_allocated w = true ->
  constructor component props options w = Ok (l, w') ->
  cache_allocated w' = true.
Proof.
  intros Halloc Hnew.
  destruct (findNodeAtPosition (nodeViewCache (editor w)) (heap w)
              (props_node props) (props_getPos props (view (editor w))))
    as [item|] eqn:Hfind.
  - rewrite (constructor_reuse _ _ _ _ _ Halloc Hfind) in Hnew.
    injection Hnew as _ <-. apply cache_allocated_spec. simpl.
    intros entry Hentry. apply lookup_insert_is_Some'. right.
    by apply cache_allocated_elem.
  - rewrite (constructor_create _ _ _ _ Halloc Hfind) in Hnew.
    injection Hnew as <- <-. apply cache_allocated_spec. simpl.
    intros entry Hentry. apply lookup_insert_is_Some'.
    apply elem_of_app in Hentry as [Hold | Hnewitem].
    + right. by apply cache_allocated_elem.
    + left. apply list_elem_of_singleton in Hnewitem. by subst entry.
Qed.

Lemma destroy_keeps_cache_allocated l w w' :
  cache_allocated w = true ->
  destroy l w = Ok w' ->
  cache_allocated w' = true.
Proof.
  intros Halloc Hdestroy. unfold destroy in Hdestroy.
  destruct (heap w !! l) as [this|]; [|done].
  destruct (isSame_falsy this); [|by injection Hdestroy as <-].
  destruct (cache this) as [item|]; [|done].
  injection Hdestroy as <-. apply cache_allocated_spec. simpl.
  intros entry Hentry.
  apply (cache_remove_elem _ _ entry) in Hentry as [Hin _].
  by apply cache_allocated_elem.
Qed.

Lemma call_handler_keeps_cache_allocated transaction l w :
  cache_allocated w = true ->
  cache_allocated (call_onBeforeUpdateState transaction l w) = true.
Proof.
  intros Halloc. unfold call_onBeforeUpdateState.
  destruct (heap w !! l) as [this|] eqn:Hl; [|done].
  apply cache_allocated_spec. simpl. intros entry Hentry.
  apply lookup_insert_is_Some'. right. by apply cache_allocated_elem.
Qed.

End Lifecycle.

(** C3: constructing a view for a (node, position) pair that the cache
    already holds returns the registered instance, which existed before the
    call; the cache (hence its size), the subscriptions and the trace (hence
    the number of mount steps) are unchanged. *)
Theorem constructor_returns_cached {Component : Type}
    (component : Component) (props : NodeViewRendererProps)
    (options : option PartialOptions) (w : @World Component)
    (item : NodeViewCacheItem) :
  cache_allocated w = true ->
  findNodeAtPosition (nodeViewCache (editor w)) (heap w)
    (props_node props) (props_getPos props (view (editor w))) = Some item ->
  exists w',
    constructor component props options w = Ok (item_instance item, w')
    /\ item ∈ cache_data (nodeViewCache (editor w))
    /\ is_Some (heap w !! item_instance item)
    /\ nodeViewCache (editor w') = nodeViewCache (editor w)
    /\ length (cache_data (nodeViewCache (editor w')))
       = length (cache_data (nodeViewCache (editor w)))
    /\ callbacks (editor w') = callbacks (editor w)
    /\ trace w' = trace w
    /\ count_effects is_mount (trace w') = count_effects is_mount (trace w).
Proof.
  intros Halloc Hfind. eexists. split.
  { by apply constructor_reuse. }
  apply findNodeAtPosition_elem in Hfind as [Hin _].
  split; [done|]. split; [by apply cache_allocated_elem|]. done.
Qed.

Lemma constructor_returns_cached_witness :
  cache_allocated Sample.cardWorld = true
  /\ findNodeAtPosition (nodeViewCache (editor Sample.cardWorld))
       (heap Sample.cardWorld) (props_node Sample.otherProps)
       (props_getPos Sample.otherProps (view (editor Sample.cardWorld)))
     = Some (mkCacheItem 0 0)
  /\ exists w',
       constructor "Other"%string Sample.otherProps Sample.otherOptions
         Sample.cardWorld
       = Ok (0%nat, w')
       /\ length (cache_data (nodeViewCache (editor w'))) = 1%nat
       /\ trace w' = [EvMount 0].
Proof.
  split; [reflexivity|]. split; [reflexivity|].
  destruct (constructor_returns_cached "Other"%string Sample.otherProps
              Sample.otherOptions Sample.cardWorld (mkCacheItem 0 0)
              eq_refl eq_refl)
    as (w' & Hnew & _ & _ & _ & Hsize & _ & Htrace & _).
  exists w'. split; [exact Hnew|]. split; [exact Hsize | exact Htrace].
Defined.

(** C10: on a cache hit the object stored at the returned address is the
    one that was there before the call, field for field (component, node,
    decorations, position, options, position resolver and the rest): what
    this invocation was given is written to a new object only, and every
    object that existed before the call is left as it was. *)
Theorem reuse_keeps_cached_fields {Component : Type}
    (component : Component) (props : NodeViewRendererProps)
    (options : option PartialOptions) (w : @World Component)
    (item : NodeViewCacheItem) :
  cache_allocated w = true ->
  findNodeAtPosition (nodeViewCache (editor w)) (heap w)
    (props_node props) (props_getPos props (view (editor w))) = Some item ->
  exists w' cached,
    constructor component props options w = Ok (item_instance item, w')
    /\ heap w !! item_instance item = Some cached
    /\ heap w' !! item_instance item = Some cached
    /\ (forall l, is_Some (heap w !! l) -> heap w' !! l = heap w !! l).
Proof.
  intros Halloc Hfind.
  assert (Hkeep : forall l, is_Some (heap w !! l) ->
            <[fresh (base.dom (heap w))
              := initial_instance component props options (editor w)]>
              (heap w) !! l = heap w !! l).
  { intros l [inst Hl]. apply lookup_insert_ne. intros Heq.
    rewrite <- Heq, fresh_unallocated in Hl. done. }
  pose proof (findNodeAtPosition_elem _ _ _ _ _ Hfind) as [Hin _].
  destruct (cache_allocated_elem w item Halloc Hin) as [cached Hcached].
  eexists. exists cached. split.
  { by apply constructor_reuse. }
  split; [done|]. simpl. split; [|exact Hkeep].
  rewrite Hkeep by eauto. done.
Qed.

Lemma reuse_keeps_cached_fields_witness :
  cache_allocated Sample.cardWorld = true
  /\ findNodeAtPosition (nodeViewCache (editor Sample.cardWorld))
       (heap Sample.cardWorld) (props_node Sample.otherProps)
       (props_getPos Sample.otherProps (view (editor Sample.cardWorld)))
     = Some (mkCacheItem 0 0)
  /\ exists w',
       constructor "Other"%string Sample.otherProps Sample.otherOptions
         Sample.cardWorld
       = Ok (0%nat, w')
       /\ heap w' !! 0%nat = Some Sample.cardView.
Proof.
  split; [reflexivity|]. split; [reflexivity|].
  destruct (reuse_keeps_cached_fields "Other"%string Sample.otherProps
              Sample.otherOptions Sample.cardWorld (mkCacheItem 0 0)
              eq_refl eq_refl)
    as (w' & cached & Hnew & Hbefore & Hafter & _).
  exists w'. split; [exact Hnew|].
  simpl in Hbefore, Hafter. rewrite Hafter, <- Hbefore. reflexivity.
Defined.

(** C2, as the code has it: with the flag [true], [destroy] changes
    nothing (the cache entry stays, no destroyed-callback); with the flag
    false or unset it removes the cache entry and calls the
    destroyed-callback once per call, so a second [destroy] finds the entry
    already gone, leaves the cache as it is and calls the callback a second
    time. *)
Theorem destroy_by_flag {Component : Type} (l : loc) (w : @World Component)
    (this : @NodeView Component) :
  heap w !! l = Some this ->
  (isSame this = Some true ->
     destroy l w = Ok w)
  /\ (isSame this <> Some true ->
      forall item, cache this = Some item ->
      exists w1 w2,
        destroy l w = Ok w1
        /\ cache_has_id (nodeViewCache (editor w1)) (item_id item) = false
        /\ count_effects (is_destroyed_of l) (trace w1)
           = S (count_effects (is_destroyed_of l) (trace w))
        /\ destroy l w1 = Ok w2
        /\ nodeViewCache (editor w2) = nodeViewCache (editor w1)
        /\ count_effects (is_destroyed_of l) (trace w2)
           = S (S (count_effects (is_destroyed_of l) (trace w)))).
Proof.
  intros Hl. split.
  - intros Hflag. by apply (destroy_preserved l w this).
  - intros Hflag item Hcache.
    eexists. eexists. split.
    { by apply (destroy_teardown l w this item). }
    split; [apply cache_remove_has_id|].
    split.
    { simpl. rewrite count_effects_snoc. simpl.
      rewrite bool_decide_true by done. lia. }
    split.
    { by apply (destroy_teardown l _ this item). }
    split.
    { simpl. by rewrite cache_remove_twice. }
    simpl. rewrite !count_effects_snoc. simpl.
    rewrite bool_decide_true by done. lia.
Qed.

Lemma destroy_by_flag_witness :
  heap (Sample.movedWorld) !! 0%nat
  = Some Sample.movedView
  /\ isSame Sample.movedView = Some true
  /\ destroy 0 (Sample.movedWorld)
     = Ok (Sample.movedWorld)
  /\ heap (Sample.replacedWorld) !! 0%nat
     = Some Sample.replacedView
  /\ isSame Sample.replacedView <> Some true
  /\ cache Sample.replacedView = Some (mkCacheItem 0 0)
  /\ exists w1 w2,
       destroy 0 (Sample.replacedWorld)
       = Ok w1
       /\ destroy 0 w1 = Ok w2
       /\ cache_has_id (nodeViewCache (editor w1)) 0 = false.
Proof.
  split; [reflexivity|]. split; [reflexivity|]. split.
  { apply (destroy_by_flag 0
             (Sample.movedWorld)
             Sample.movedView eq_refl).
    reflexivity. }
  split; [reflexivity|]. split; [discriminate|]. split; [reflexivity|].
  destruct (destroy_by_flag 0
              (Sample.replacedWorld)
              Sample.replacedView eq_refl) as [_ Hteardown].
  destruct (Hteardown ltac:(discriminate) (mkCacheItem 0 0) eq_refl)
    as (w1 & w2 & H1 & Hgone & _ & H2 & _).
  exists w1, w2. split; [exact H1|]. split; [exact H2 | exact Hgone].
Defined.

(** C2, as the claim has it, fails: with the flag [false], two calls of
    [destroy] invoke the destroyed-callback twice, not once. *)
Lemma destroy_twice_calls_destroyed_twice :
  (isSame <$> heap Sample.replacedWorld !! 0%nat) = Some (Some false)
  /\ count_effects (is_destroyed_of 0) (trace Sample.replacedWorld) = 0%nat
  /\ exists w1 w2,
       destroy 0 Sample.replacedWorld = Ok w1
       /\ destroy 0 w1 = Ok w2
       /\ count_effects (is_destroyed_of 0) (trace w2) = 2%nat
       /\ count_effects (is_destroyed_of 0) (trace w2) <> 1%nat.
Proof.
  split; [reflexivity|]. split; [reflexivity|].
  eexists. eexists. split; [reflexivity|]. split; [reflexivity|].
  split; [reflexivity | discriminate].
Qed.

(** C9: an instance that the constructor has just created has its flag
    unset, and stays so while only transactions that leave the document
    unchanged are emitted; [destroy] on it then takes the teardown path:
    its cache entry is removed, its ['beforeUpdateState'] handler is
    unsubscribed and the destroyed-callback is called. *)
Theorem created_instance_is_torn_down {Component : Type}
    (component : Component) (props : NodeViewRendererProps)
    (options : option PartialOptions) (w : @World Component) :
  cache_allocated w = true ->
  findNodeAtPosition (nodeViewCache (editor w)) (heap w)
    (props_node props) (props_getPos props (view (editor w))) = None ->
  exists l w1 this item,
    constructor component props options w = Ok (l, w1)
    /\ heap w1 !! l = Some this
    /\ isSame this = None
    /\ isSame_falsy this = true
    /\ cache this = Some item
    /\ item ∈ cache_data (nodeViewCache (editor w1))
    /\ forall transactions,
         Forall (fun t => docChanged t = false) transactions ->
         let w2 := forEach transactions emit_beforeUpdateState w1 in
         exists w3,
           destroy l w2 = Ok w3
           /\ cache_has_id (nodeViewCache (editor w3)) (item_id item) = false
           /\ (forall entry,
                 entry ∈ cache_data (nodeViewCache (editor w3)) ->
                 item_instance entry <> l)
           /\ (("beforeUpdateState"%string, l) ∉ callbacks (editor w3))
           /\ trace w3 = trace w2 ++ [EvDestroyed l].
Proof.
  intros Halloc Hfind.
  pose proof (constructor_create component props options w Halloc Hfind)
    as Hnew. simpl in Hnew.
  set (l := fresh (base.dom (heap w))) in *.
  set (item := mkCacheItem (cache_next_id (nodeViewCache (editor w))) l) in *.
  eexists l, _, _, item. split; [exact Hnew|]. simpl.
  split; [apply lookup_insert_eq|].
  split; [done|]. split; [done|]. split; [done|].
  split; [apply elem_of_app; right; by left|].
  intros transactions Hquiet. rewrite emit_all_quiet by done.
  eexists. split.
  { eapply destroy_teardown; [apply lookup_insert_eq | done | done]. }
  split; [apply cache_remove_has_id|].
  split.
  { intros entry Hentry Hl.
    apply (cache_remove_elem _ _ entry) in Hentry as [Hin Hid].
    simpl in Hin, Hid.
    apply elem_of_app in Hin as [Hold | Hnewitem].
    - destruct (cache_allocated_elem w entry Halloc Hold) as [inst Hinst].
      rewrite Hl in Hinst. unfold l in Hinst.
      by rewrite fresh_unallocated in Hinst.
    - apply list_elem_of_singleton in Hnewitem. subst entry. by apply Hid. }
  split; [|done].
  apply (off_unsubscribed "beforeUpdateState" l).
Qed.

Lemma created_instance_is_torn_down_witness :
  cache_allocated Sample.emptyWorld = true
  /\ findNodeAtPosition (nodeViewCache (editor Sample.emptyWorld))
       (heap Sample.emptyWorld) (props_node Sample.cardProps)
       (props_getPos Sample.cardProps (view (editor Sample.emptyWorld)))
     = None
  /\ exists l w1 w3,
       constructor "Card"%string Sample.cardProps None Sample.emptyWorld
       = Ok (l, w1)
       /\ destroy l
            (forEach [Sample.selecting] emit_beforeUpdateState w1) = Ok w3
       /\ trace w3
          = trace (forEach [Sample.selecting] emit_beforeUpdateState w1)
            ++ [EvDestroyed l].
Proof.
  split; [reflexivity|]. split; [reflexivity|].
  destruct (created_instance_is_torn_down "Card"%string Sample.cardProps None
              Sample.emptyWorld eq_refl eq_refl)
    as (l & w1 & this & item & Hnew & _ & _ & _ & _ & _ & Hdestroy).
  destruct (Hdestroy [Sample.selecting]
              ltac:(repeat constructor)) as (w3 & Hw3 & _ & _ & _ & Htrace).
  exists l, w1, w3. split; [exact Hnew|]. split; [exact Hw3 | exact Htrace].
Defined.

(** C5: a transaction that did not change the document leaves the instance
    as it was (position, flag and every other field), and running the
    handler, or emitting the event to all subscribers, leaves the whole
    store as it was. *)
Theorem unchanged_document_is_noop {Component : Type}
    (this : @NodeView Component) (transaction : Transaction) :
  docChanged transaction = false ->
  onBeforeUpdateState this transaction = this
  /\ position (onBeforeUpdateState this transaction) = position this
  /\ isSame (onBeforeUpdateState this transaction) = isSame this
  /\ (forall (w : @World Component) (l : loc),
        call_onBeforeUpdateState transaction l w = w)
  /\ (forall w : @World Component, emit_beforeUpdateState transaction w = w).
Proof.
  intros Hsame.
  assert (Hthis : onBeforeUpdateState this transaction = this).
  { unfold onBeforeUpdateState. by rewrite Hsame. }
  rewrite Hthis. repeat split.
  - intros w l. by apply call_handler_quiet.
  - intros w. by apply emit_quiet.
Qed.

Lemma unchanged_document_is_noop_witness :
  docChanged Sample.selecting = false
  /\ onBeforeUpdateState Sample.cardView Sample.selecting = Sample.cardView.
Proof.
  split; [reflexivity|].
  apply (unchanged_document_is_noop Sample.cardView Sample.selecting).
  reflexivity.
Defined.

(** ** Event mediation: properties *)

(** C6, as the code has it: with a root element and no override,
    [stopEvent] returns [true] for any event whose target is inside the root,
    outside the content element, and is a form control or content-editable;
    [false] for any event whose target is outside the root; and [false] for
    a copy event whose target is inside the root and is either inside the
    content element or neither a form control nor content-editable. *)
Theorem stopEvent_without_override {Component : Type}
    (this : @NodeView Component) (ed : Editor) (event : Event)
    (root : Element) :
  dom this = Some root ->
  opt_stopEvent (options this) = None ->
  let target := ev_target event in
  (contains root target = true ->
   contentDOM_contains this target = false ->
   isFormControl target = true \/ isContentEditable (el_self target) = true ->
   returned (stopEvent this ed event) = true)
  /\ (contains root target = false ->
      returned (stopEvent this ed event) = false)
  /\ (ev_type event = "copy"%string ->
      contains root target = true ->
      contentDOM_contains this target = true
      \/ (isFormControl target = false
          /\ isContentEditable (el_self target) = false) ->
      returned (stopEvent this ed event) = false).
Proof.
  intros Hroot Hoverride target. unfold stopEvent.
  rewrite Hroot, Hoverride. fold target. repeat split.
  - intros Hin Hout Hinput. rewrite Hin, Hout. simpl.
    destruct Hinput as [-> | ->]; [done|]. by rewrite orb_true_r.
  - intros Hin. by rewrite Hin.
  - intros Hcopy Hin [Hcontent | [Hform Hedit]].
    + by rewrite Hin, Hcontent.
    + rewrite Hin, Hform, Hedit, Hcopy. simpl.
      destruct (contentDOM_contains this target); simpl; [done|].
      rewrite !andb_false_r. simpl.
      by rewrite orb_true_r.
Qed.

Lemma stopEvent_without_override_witness :
  dom Sample.renderedCard = Some Sample.rootEl
  /\ opt_stopEvent (options Sample.renderedCard) = None
  /\ returned (stopEvent Sample.renderedCard Sample.emptyEditor
                 Sample.clickCaption) = true
  /\ returned (stopEvent Sample.renderedCard Sample.emptyEditor
                 Sample.clickOutside) = false
  /\ returned (stopEvent Sample.renderedCard Sample.emptyEditor
                 Sample.copyLabel) = false.
Proof.
  split; [reflexivity|]. split; [reflexivity|].
  destruct (stopEvent_without_override Sample.renderedCard
              Sample.emptyEditor Sample.clickCaption Sample.rootEl eq_refl eq_refl)
    as (Hclick & _ & _).
  destruct (stopEvent_without_override Sample.renderedCard
              Sample.emptyEditor Sample.clickOutside Sample.rootEl eq_refl eq_refl)
    as (_ & Haway & _).
  destruct (stopEvent_without_override Sample.renderedCard
              Sample.emptyEditor Sample.copyLabel Sample.rootEl eq_refl eq_refl)
    as (_ & _ & Hcopy).
  split; [|split].
  - apply Hclick; [reflexivity | reflexivity | right; reflexivity].
  - apply Haway. reflexivity.
  - apply Hcopy; [reflexivity | reflexivity | right; split; reflexivity].
Defined.

(** C6, as the claim has it, fails twice: a click on a content-editable
    descendant of the root that lies inside the content element is left to
    the host ([false]), and a copy event on a form control inside the root is
    kept from the host ([true]). *)
Lemma stopEvent_claim_fails :
  opt_stopEvent (options Sample.renderedCard) = None
  /\ dom Sample.renderedCard = Some Sample.rootEl
  /\ contains Sample.rootEl Sample.paragraphEl = true
  /\ isContentEditable (el_self Sample.paragraphEl) = true
  /\ returned (stopEvent Sample.renderedCard Sample.emptyEditor
                 Sample.mousedownParagraph) = false
  /\ returned (stopEvent Sample.renderedCard Sample.emptyEditor
                 Sample.clickParagraph) = false
  /\ contains Sample.rootEl Sample.inputEl = true
  /\ returned (stopEvent Sample.renderedCard Sample.emptyEditor
                 Sample.copyInput) = true.
Proof. repeat split. Qed.

(** C7, as the code has it: [ignoreMutation] returns [true] for every
    mutation when the bound node is a leaf, and [true] whenever the root or
    the content element is missing; when both elements exist and the node is
    not a leaf it returns [false] for every selection mutation. *)
Theorem ignoreMutation_leaf_and_selection {Component : Type}
    (this : @NodeView Component) (isiOS : bool) (mutation : Mutation) :
  (isLeaf (node this) = true -> ignoreMutation this isiOS mutation = true)
  /\ (dom this = None \/ contentDOM this = None ->
      ignoreMutation this isiOS mutation = true)
  /\ (isLeaf (node this) = false ->
      mut_type mutation = selection ->
      is_Some (dom this) -> is_Some (contentDOM this) ->
      ignoreMutation this isiOS mutation = false).
Proof.
  unfold ignoreMutation. repeat split.
  - intros Hleaf. rewrite Hleaf. by destruct (dom this), (contentDOM this).
  - intros [-> | ->]; [done|]. by destruct (dom this).
  - intros Hleaf Hsel [root ->] [content ->]. by rewrite Hleaf, Hsel.
Qed.

Lemma ignoreMutation_leaf_and_selection_witness :
  isLeaf (node Sample.renderedImage) = true
  /\ ignoreMutation Sample.renderedImage true
       (Sample.selectionIn Sample.paragraphEl) = true
  /\ isLeaf (node Sample.renderedCard) = false
  /\ ignoreMutation Sample.renderedCard true
       (Sample.selectionIn Sample.paragraphEl) = false.
Proof.
  destruct (ignoreMutation_leaf_and_selection Sample.renderedImage true
              (Sample.selectionIn Sample.paragraphEl)) as (Hleaf & _ & _).
  destruct (ignoreMutation_leaf_and_selection Sample.renderedCard true
              (Sample.selectionIn Sample.paragraphEl)) as (_ & _ & Hsel).
  split; [reflexivity|]. split; [apply Hleaf; reflexivity|].
  split; [reflexivity|].
  apply Hsel; [reflexivity | reflexivity | by eexists | by eexists].
Defined.

(** C7, as the claim has it, fails: a selection mutation on a view whose
    node is not a leaf is ignored ([true]) when the view has no content
    element. *)
Lemma ignoreMutation_claim_fails :
  isLeaf (node Sample.opaqueCard) = false
  /\ mut_type (Sample.selectionIn Sample.labelEl) = selection
  /\ ignoreMutation Sample.opaqueCard false
       (Sample.selectionIn Sample.labelEl) = true
  /\ ignoreMutation Sample.cardView false
       (Sample.selectionIn Sample.labelEl) = true.
Proof. repeat split. Qed.

(** ** Attribute update: properties *)

Lemma spread_attrs_lookup (a b : gmap string JsValue) (key : string) :
  spread_attrs a b !! key
  = match b !! key with
    | Some v => Some v
    | None => a !! key
    end.
Proof.
  unfold spread_attrs. rewrite lookup_union.
  by destruct (b !! key), (a !! key).
Qed.

Lemma computeAttrs_lookup (declared : gmap string Attribute)
    (value built : gmap string JsValue) (key : string) :
  computeAttrs declared value = Ok built ->
  built !! key
  = match declared !! key with
    | Some attr => Some (attr_value attr (value !! key))
    | None => None
    end.
Proof.
  unfold computeAttrs. destruct (forallb _ _); [|done].
  intros [= <-]. rewrite map_lookup_imap. by destruct (declared !! key).
Qed.


Lemma computeAttrs_throws (declared : gmap string Attribute)
    (value : gmap string JsValue) (name : string) (attr : Attribute) :
  declared !! name = Some attr ->
  hasDefault attr = false ->
  is_given (value !! name) = false ->
  exists e, computeAttrs declared value = Throw e.
Proof.
  intros Hdeclared Hdefault Hmissing. unfold computeAttrs.
  destruct (forallb _ _) eqn:Hall; [|by eexists].
  rewrite forallb_forall in Hall.
  specialize (Hall (name, attr)). simpl in Hall.
  rewrite Hdefault, Hmissing in Hall.
  discriminate Hall. by apply list_elem_of_In, elem_of_map_to_list.
Qed.




(** ** Further properties of the position tracking *)

(** X1: the transaction hook writes [position] and [isSame] and nothing
    else: the bound node, the component, the options, the cache handle and
    every other field are as before, whatever the transaction. *)
Theorem onBeforeUpdateState_frame {Component : Type}
    (this : @NodeView Component) (transaction : Transaction) :
  component (onBeforeUpdateState this transaction) = component this
  /\ extension (onBeforeUpdateState this transaction) = extension this
  /\ node (onBeforeUpdateState this transaction) = node this
  /\ decorations (onBeforeUpdateState this transaction) = decorations this
  /\ getPos (onBeforeUpdateState this transaction) = getPos this
  /\ isDragging (onBeforeUpdateState this transaction) = isDragging this
  /\ options (onBeforeUpdateState this transaction) = options this
  /\ cache (onBeforeUpdateState this transaction) = cache this
  /\ dom (onBeforeUpdateState this transaction) = dom this
  /\ contentDOM (onBeforeUpdateState this transaction) = contentDOM this.
Proof.
  unfold onBeforeUpdateState.
  by destruct (docChanged transaction).
Qed.

(** X2: two document-changing transactions handled one after the other
    leave the instance as a single transaction would that carries the maps
    of the first followed by the maps of the second, and the document and
    the ['uiEvent'] metadata of the second. *)
Theorem onBeforeUpdateState_sequence {Component : Type}
    (this : @NodeView Component) (first second both : Transaction) :
  docChanged first = true ->
  docChanged second = true ->
  docChanged both = true ->
  mapping_maps both = mapping_maps first ++ mapping_maps second ->
  doc both = doc second ->
  getMeta both "uiEvent" = getMeta second "uiEvent" ->
  onBeforeUpdateState (onBeforeUpdateState this first) second
  = onBeforeUpdateState this both.
Proof.
  intros Hfirst Hsecond Hboth Hmaps Hdoc Hmeta.
  unfold onBeforeUpdateState.
  rewrite Hfirst, Hsecond, Hboth, Hmaps, Hdoc, Hmeta. simpl.
  by rewrite forEach_app.
Qed.

Lemma onBeforeUpdateState_sequence_witness :
  onBeforeUpdateState
    (onBeforeUpdateState Sample.cardView Sample.typingMore) Sample.typingMore
  = onBeforeUpdateState Sample.cardView
      (mkTransaction true [Sample.insert2at3; Sample.insert2at3]
         (Sample.cardAt 11) Sample.noMeta)
  /\ position
       (onBeforeUpdateState
          (onBeforeUpdateState Sample.cardView Sample.typingMore)
          Sample.typingMore) = 9.
Proof.
  split; [|reflexivity].
  apply (onBeforeUpdateState_sequence Sample.cardView Sample.typingMore
           Sample.typingMore
           (mkTransaction true [Sample.insert2at3; Sample.insert2at3]
              (Sample.cardAt 11) Sample.noMeta));
    reflexivity.
Defined.

(** ** Further properties of construction and teardown *)

Lemma find_some_of_elem {A : Type} (f : A -> bool) (xs : list A) (x : A) :
  x ∈ xs -> f x = true -> exists y, List.find f xs = Some y.
Proof.
  intros Hin Hfx. destruct (List.find f xs) as [y|] eqn:Hfind; [by eexists|].
  apply list_elem_of_In in Hin.
  pose proof (find_none _ _ Hfind x Hin) as Hno. congruence.
Qed.

Lemma same_node_refl_of (a b : ProseMirrorNode) :
  node_ref a = node_ref b -> same_node a b = true.
Proof. intros Href. unfold same_node. by apply bool_decide_eq_true. Qed.

Lemma entry_matches_inv {Component : Type}
    (h : gmap nat (@NodeView Component)) (n : ProseMirrorNode) (pos : Z)
    (item : NodeViewCacheItem) :
  entry_matches h n pos item = true ->
  exists inst, h !! item_instance item = Some inst
               /\ node_ref (node inst) = node_ref n
               /\ position inst = pos.
Proof.
  unfold entry_matches. destruct (h !! item_instance item) as [inst|]; [|done].
  rewrite andb_true_iff. unfold same_node. rewrite !bool_decide_eq_true.
  intros [Href Hpos]. by exists inst.
Qed.

(** X3: a view whose node merely moved survives: once the transaction hook
    has stored [isSame = true], [destroy] leaves the store as it is, and a
    construction for the same node object at the position the hook stored
    takes the reuse path: it returns a registered instance bound to that
    node at that position, registers and subscribes nothing and mounts
    nothing. *)
Theorem moved_instance_is_reused {Component : Type}
    (component : Component) (props : NodeViewRendererProps)
    (options : option PartialOptions) (w : @World Component) (l : loc)
    (this : @NodeView Component) (item : NodeViewCacheItem)
    (transaction : Transaction) :
  cache_allocated w = true ->
  heap w !! l = Some this ->
  item ∈ cache_data (nodeViewCache (editor w)) ->
  item_instance item = l ->
  isSame (onBeforeUpdateState this transaction) = Some true ->
  node_ref (props_node props) = node_ref (node this) ->
  props_getPos props (view (editor w))
  = position (onBeforeUpdateState this transaction) ->
  destroy l (call_onBeforeUpdateState transaction l w)
  = Ok (call_onBeforeUpdateState transaction l w)
  /\ exists reused w' inst,
       constructor component props options
         (call_onBeforeUpdateState transaction l w)
       = Ok (item_instance reused, w')
       /\ reused ∈ cache_data (nodeViewCache (editor w))
       /\ editor w' = editor w
       /\ trace w' = trace w
       /\ heap w' !! item_instance reused = Some inst
       /\ node_ref (node inst) = node_ref (node this)
       /\ position inst = position (onBeforeUpdateState this transaction).
Proof.
  intros Halloc Hl Hin Hitem Hflag Hnode Hpos.
  set (after := onBeforeUpdateState this transaction) in *.
  assert (Hw1 : call_onBeforeUpdateState transaction l w
                = set_heap w (<[l := after]> (heap w))).
  { unfold call_onBeforeUpdateState. by rewrite Hl. }
  assert (Halloc1 : cache_allocated
                      (call_onBeforeUpdateState transaction l w) = true).
  { by apply call_handler_keeps_cache_allocated. }
  rewrite Hw1 in Halloc1 |- *. clear Hw1.
  set (w1 := set_heap w (<[l := after]> (heap w))) in *.
  assert (Hl1 : heap w1 !! l = Some after) by apply lookup_insert_eq.
  split; [by apply (destroy_preserved l w1 after)|].
  assert (Hmatch : entry_matches (heap w1) (props_node props)
                     (props_getPos props (view (editor w1))) item = true).
  { unfold entry_matches. rewrite Hitem, Hl1. apply andb_true_iff. split.
    - apply same_node_refl_of.
      unfold after, onBeforeUpdateState.
      by destruct (docChanged transaction).
    - by apply bool_decide_eq_true. }
  destruct (find_some_of_elem _ _ item Hin Hmatch) as [reused Hfind].
  fold (findNodeAtPosition (nodeViewCache (editor w1)) (heap w1)
          (props_node props) (props_getPos props (view (editor w1))))
    in Hfind.
  pose proof (findNodeAtPosition_elem _ _ _ _ _ Hfind) as [Hrin Hrmatch].
  apply entry_matches_inv in Hrmatch as (inst & Hinst & Hinode & Hipos).
  exists reused. eexists. exists inst. split.
  { by apply constructor_reuse. }
  split; [done|]. split; [done|]. split; [done|]. simpl.
  split; [|split].
  - rewrite lookup_insert_ne; [done|]. intros Heq.
    rewrite <- Heq in Hinst. by rewrite fresh_unallocated in Hinst.
  - by rewrite Hinode.
  - by rewrite Hipos.
Qed.

Lemma moved_instance_is_reused_witness :
  isSame (onBeforeUpdateState Sample.cardView Sample.typing) = Some true
  /\ destroy 0 (call_onBeforeUpdateState Sample.typing 0 Sample.cardWorld)
     = Ok (call_onBeforeUpdateState Sample.typing 0 Sample.cardWorld)
  /\ exists w',
       constructor "Again"%string Sample.movedProps None
         (call_onBeforeUpdateState Sample.typing 0 Sample.cardWorld)
       = Ok (0%nat, w')
       /\ trace w' = [EvMount 0].
Proof.
  destruct (moved_instance_is_reused "Again"%string Sample.movedProps None
              Sample.cardWorld 0 Sample.cardView (mkCacheItem 0 0)
              Sample.typing eq_refl eq_refl
              ltac:(apply list_elem_of_singleton; reflexivity)
              eq_refl eq_refl eq_refl eq_refl)
    as (Hkept & reused & w' & inst & Hnew & Hin & _ & Htrace & _).
  split; [reflexivity|]. split; [exact Hkept|].
  exists w'. split; [|exact Htrace].
  apply list_elem_of_singleton in Hin. rewrite Hin in Hnew. exact Hnew.
Defined.

(** X4: a view whose node was pasted or dropped over is torn down even if
    the very same node object sits at the remapped position: after the hook
    has handled a document-changing transaction tagged ['paste'] or ['drop'],
    [destroy] removes the cache entry, unsubscribes the handler and calls
    the destroyed-callback. *)
Theorem pasted_instance_is_torn_down {Component : Type}
    (w : @World Component) (l : loc) (this : @NodeView Component)
    (item : NodeViewCacheItem) (transaction : Transaction) :
  heap w !! l = Some this ->
  cache this = Some item ->
  docChanged transaction = true ->
  getMeta transaction "uiEvent" = JsString "paste"
  \/ getMeta transaction "uiEvent" = JsString "drop" ->
  exists w',
    destroy l (call_onBeforeUpdateState transaction l w) = Ok w'
    /\ cache_has_id (nodeViewCache (editor w')) (item_id item) = false
    /\ (("beforeUpdateState"%string, l) ∉ callbacks (editor w'))
    /\ trace w' = trace w ++ [EvDestroyed l].
Proof.
  intros Hl Hcache Hchanged Hmeta.
  unfold call_onBeforeUpdateState. rewrite Hl.
  set (after := onBeforeUpdateState this transaction).
  assert (Hflag : isSame after = Some false).
  { unfold after, onBeforeUpdateState. rewrite Hchanged. simpl. f_equal.
    destruct Hmeta as [-> | ->]; simpl;
      by rewrite ?andb_false_r. }
  assert (Hkeep : cache after = Some item).
  { unfold after, onBeforeUpdateState. rewrite Hchanged. done. }
  eexists. split.
  { eapply (destroy_teardown l _ after item);
      [apply lookup_insert_eq | by rewrite Hflag | done]. }
  split; [apply cache_remove_has_id|].
  split; [|done].
  apply (off_unsubscribed "beforeUpdateState" l).
Qed.

Lemma pasted_instance_is_torn_down_witness :
  nodeAt (doc Sample.pasting) 9 = Some (node Sample.cardView)
  /\ exists w',
       destroy 0 (call_onBeforeUpdateState Sample.pasting 0 Sample.cardWorld)
       = Ok w'
       /\ trace w' = [EvMount 0; EvDestroyed 0].
Proof.
  split; [reflexivity|].
  destruct (pasted_instance_is_torn_down Sample.cardWorld 0 Sample.cardView
              (mkCacheItem 0 0) Sample.pasting eq_refl eq_refl eq_refl
              ltac:(left; reflexivity))
    as (w' & Hdestroy & _ & _ & Htrace).
  exists w'. split; [exact Hdestroy | exact Htrace].
Defined.

Lemma find_snoc {A : Type} (f : A -> bool) (xs : list A) (x : A) :
  List.find f xs = None -> f x = true -> List.find f (xs ++ [x]) = Some x.
Proof.
  induction xs as [|y rest IH]; simpl; intros Hnone Hfx.
  - by rewrite Hfx.
  - destruct (f y); [done|]. by apply IH.
Qed.

(** X5: on the creation path the object that the constructor returns is a
    new one and holds what the call was given: the component, the node, the
    decorations and the position resolver of the props, the position that
    the resolver reports at that moment, the default options overridden by
    the options passed; it is not dragging, and, as the base-class getters
    answer [null], it has no root and no content element. *)
Theorem constructor_stores_arguments {Component : Type}
    (comp : Component) (props : NodeViewRendererProps)
    (opts : option PartialOptions) (w : @World Component) :
  cache_allocated w = true ->
  findNodeAtPosition (nodeViewCache (editor w)) (heap w)
    (props_node props) (props_getPos props (view (editor w))) = None ->
  exists l w' this,
    constructor comp props opts w = Ok (l, w')
    /\ heap w !! l = None
    /\ heap w' !! l = Some this
    /\ component this = comp
    /\ extension this = props_extension props
    /\ node this = props_node props
    /\ decorations this = props_decorations props
    /\ getPos this = props_getPos props
    /\ position this = props_getPos props (view (editor w))
    /\ isDragging this = false
    /\ opt_stopEvent (options this)
       = match opts with
         | Some o => match part_stopEvent o with
                     | Some given => given
                     | None => None
                     end
         | None => None
         end
    /\ opt_update (options this)
       = match opts with
         | Some o => match part_update o with
                     | Some given => given
                     | None => None
                     end
         | None => None
         end
    /\ dom this = None
    /\ contentDOM this = None.
Proof.
  intros Halloc Hfind.
  pose proof (constructor_create comp props opts w Halloc Hfind)
    as Hnew. simpl in Hnew.
  eexists _, _, _. split; [exact Hnew|]. simpl.
  split; [apply fresh_unallocated|].
  split; [apply lookup_insert_eq|]. simpl.
  repeat split; by destruct opts as [[[?|] [?|]]|].
Qed.

Lemma constructor_stores_arguments_witness :
  exists l w' this,
    constructor "Card"%string Sample.cardProps Sample.otherOptions
      Sample.emptyWorld = Ok (l, w')
    /\ heap w' !! l = Some this
    /\ position this = 5
    /\ (exists keep, opt_stopEvent (options this) = Some keep)
    /\ opt_update (options this) = None.
Proof.
  destruct (constructor_stores_arguments "Card"%string Sample.cardProps
              Sample.otherOptions Sample.emptyWorld eq_refl eq_refl)
    as (l & w' & this & Hnew & _ & Hl & _ & _ & _ & _ & _ & Hpos & _
        & Hstop & Hupdate & _).
  exists l, w', this. split; [exact Hnew|]. split; [exact Hl|].
  split; [exact Hpos|]. simpl in Hstop. split; [eexists; exact Hstop | exact Hupdate].
Defined.

(** X6: when every cache entry points to an allocated instance, a
    construction succeeds on either path (registering cannot fail after the
    lookup missed), keeps that invariant, and leaves every instance object
    that existed before the call, the view and [isEditable] as they were;
    the cache and the subscriptions grow by one entry or not at all, and at
    most one mount step is recorded. *)
Theorem constructor_succeeds {Component : Type}
    (component : Component) (props : NodeViewRendererProps)
    (options : option PartialOptions) (w : @World Component) :
  cache_allocated w = true ->
  exists l w',
    constructor component props options w = Ok (l, w')
    /\ cache_allocated w' = true
    /\ is_Some (heap w' !! l)
    /\ (forall l', is_Some (heap w !! l') -> heap w' !! l' = heap w !! l')
    /\ view (editor w') = view (editor w)
    /\ isEditable (editor w') = isEditable (editor w)
    /\ ((editor w' = editor w /\ trace w' = trace w)
        \/ (exists item,
              cache_data (nodeViewCache (editor w'))
              = cache_data (nodeViewCache (editor w)) ++ [item]
              /\ item_instance item = l
              /\ callbacks (editor w')
                 = callbacks (editor w) ++ [("beforeUpdateState"%string, l)]
              /\ trace w' = trace w ++ [EvMount l])).
Proof.
  intros Halloc.
  assert (Hkeep : forall x l',
            is_Some (heap w !! l') ->
            <[fresh (base.dom (heap w)) := x]> (heap w) !! l' = heap w !! l').
  { intros x l' [inst Hl']. apply lookup_insert_ne. intros Heq.
    rewrite <- Heq, fresh_unallocated in Hl'. done. }
  destruct (findNodeAtPosition (nodeViewCache (editor w)) (heap w)
              (props_node props) (props_getPos props (view (editor w))))
    as [item|] eqn:Hfind.
  - pose proof (constructor_reuse component props options w item Halloc Hfind)
      as Hnew.
    eexists _, _. split; [exact Hnew|].
    split; [by eapply constructor_keeps_cache_allocated|]. simpl.
    split.
    { rewrite Hkeep.
      - apply findNodeAtPosition_elem in Hfind as [Hin _].
        by apply cache_allocated_elem.
      - apply findNodeAtPosition_elem in Hfind as [Hin _].
        by apply cache_allocated_elem. }
    split; [apply Hkeep|]. split; [done|]. split; [done|]. by left.
  - pose proof (constructor_create component props options w Halloc Hfind)
      as Hnew. simpl in Hnew.
    eexists _, _. split; [exact Hnew|].
    split; [by eapply constructor_keeps_cache_allocated|]. simpl.
    split; [rewrite lookup_insert_eq; by eexists|].
    split; [apply Hkeep|]. split; [done|]. split; [done|].
    right. eexists. by repeat split.
Qed.

Lemma constructor_succeeds_witness :
  cache_allocated Sample.cardWorld = true
  /\ exists l w',
       constructor "Other"%string Sample.otherProps None Sample.cardWorld
       = Ok (l, w')
       /\ heap w' !! 0%nat = Some Sample.cardView.
Proof.
  split; [reflexivity|].
  destruct (constructor_succeeds "Other"%string Sample.otherProps None
              Sample.cardWorld eq_refl)
    as (l & w' & Hnew & _ & _ & Hkeep & _).
  exists l, w'. split; [exact Hnew|].
  rewrite Hkeep; [reflexivity | by eexists].
Defined.

(** X7: constructing twice for the same node object at the same position
    gives the same instance both times: the second call, whatever component
    and options it passes, returns the address that the first call created,
    and adds no cache entry, no subscription and no mount step. *)
Theorem constructing_twice_gives_one_instance {Component : Type}
    (component component' : Component)
    (props props' : NodeViewRendererProps)
    (options options' : option PartialOptions) (w : @World Component) :
  cache_allocated w = true ->
  findNodeAtPosition (nodeViewCache (editor w)) (heap w)
    (props_node props) (props_getPos props (view (editor w))) = None ->
  node_ref (props_node props') = node_ref (props_node props) ->
  props_getPos props' (view (editor w))
  = props_getPos props (view (editor w)) ->
  exists l w1 w2,
    constructor component props options w = Ok (l, w1)
    /\ constructor component' props' options' w1 = Ok (l, w2)
    /\ editor w2 = editor w1
    /\ trace w2 = trace w ++ [EvMount l]
    /\ heap w2 !! l = heap w1 !! l
    /\ count_effects is_mount (trace w2)
       = S (count_effects is_mount (trace w)).
Proof.
  intros Halloc Hfind Hnode Hpos.
  pose proof (constructor_create component props options w Halloc Hfind)
    as Hnew. simpl in Hnew.
  pose proof (constructor_keeps_cache_allocated _ _ _ _ _ _ Halloc Hnew)
    as Halloc1.
  set (l := fresh (base.dom (heap w))) in *.
  set (item := mkCacheItem (cache_next_id (nodeViewCache (editor w))) l) in *.
  set (created := set_cache
                    (initial_instance component props options (editor w))
                    item) in *.
  match type of Hnew with _ = Ok (_, ?x) => set (w1 := x) in * end.
  assert (Hhit : findNodeAtPosition (nodeViewCache (editor w1)) (heap w1)
                   (props_node props')
                   (props_getPos props' (view (editor w1))) = Some item).
  { unfold findNodeAtPosition. simpl. apply find_snoc.
    - rewrite <- Hfind. unfold findNodeAtPosition. apply find_ext_elem.
      intros entry Hentry. unfold entry_matches.
      destruct (cache_allocated_elem w entry Halloc Hentry) as [inst Hinst].
      rewrite lookup_insert_ne.
      + rewrite Hinst, Hpos. unfold same_node. by rewrite Hnode.
      + intros Heq. rewrite <- Heq in Hinst. unfold l in Hinst.
        by rewrite fresh_unallocated in Hinst.
    - unfold entry_matches. simpl. rewrite lookup_insert_eq. simpl.
      apply andb_true_iff. split.
      + apply same_node_refl_of. by symmetry.
      + apply bool_decide_eq_true. by symmetry. }
  pose proof (constructor_reuse component' props' options' w1 item Halloc1
                Hhit) as Hagain.
  exists l, w1. eexists. split; [exact Hnew|]. split; [exact Hagain|].
  simpl. split; [done|]. split; [done|]. split.
  - rewrite lookup_insert_ne; [done|]. intros Heq.
    pose proof (fresh_unallocated (<[l := created]> (heap w))) as Hfresh.
    rewrite Heq in Hfresh. by rewrite lookup_insert_eq in Hfresh.
  - rewrite count_effects_snoc. simpl. lia.
Qed.

Lemma constructing_twice_gives_one_instance_witness :
  exists l w1 w2,
    constructor "Card"%string Sample.cardProps None Sample.emptyWorld
    = Ok (l, w1)
    /\ constructor "Other"%string Sample.otherProps Sample.otherOptions w1
       = Ok (l, w2)
    /\ trace w2 = [EvMount l].
Proof.
  destruct (constructing_twice_gives_one_instance "Card"%string
              "Other"%string Sample.cardProps Sample.otherProps None
              Sample.otherOptions Sample.emptyWorld
              eq_refl eq_refl eq_refl eq_refl)
    as (l & w1 & w2 & Hfirst & Hsecond & _ & Htrace & _).
  exists l, w1, w2. split; [exact Hfirst|]. split; [exact Hsecond|].
  exact Htrace.
Defined.

(** X8: [destroy] never writes to an instance object (in particular it
    does not reset [isSame] or the cache handle), to the view or to
    [isEditable]; it records at most one effect, the destroyed-callback of
    this instance; it adds no cache entry and no subscription, and it keeps
    every subscription other than this instance's ['beforeUpdateState']
    handler. *)
Theorem destroy_frame {Component : Type} (l : loc)
    (w w' : @World Component) :
  destroy l w = Ok w' ->
  heap w' = heap w
  /\ view (editor w') = view (editor w)
  /\ isEditable (editor w') = isEditable (editor w)
  /\ (trace w' = trace w \/ trace w' = trace w ++ [EvDestroyed l])
  /\ (forall item, item ∈ cache_data (nodeViewCache (editor w')) ->
                   item ∈ cache_data (nodeViewCache (editor w)))
  /\ (forall cb, cb ∈ callbacks (editor w') -> cb ∈ callbacks (editor w))
  /\ (forall cb, cb ∈ callbacks (editor w) ->
                 cb <> ("beforeUpdateState"%string, l) ->
                 cb ∈ callbacks (editor w')).
Proof.
  unfold destroy. intros Hdestroy.
  destruct (heap w !! l) as [this|]; [|done].
  destruct (isSame_falsy this).
  - destruct (cache this) as [item|]; [|done].
    injection Hdestroy as <-. simpl.
    split; [done|]. split; [done|]. split; [done|].
    split; [by right|]. split; [|split].
    + intros entry Hentry.
      by apply (cache_remove_elem _ _ entry) in Hentry as [Hin _].
    + intros cb. rewrite !list_elem_of_In, filter_In. by intros [Hin _].
    + intros [ev l'] Hin Hother. rewrite list_elem_of_In, filter_In.
      split; [by apply list_elem_of_In|].
      apply negb_true_iff. unfold same_callback. simpl.
      destruct (String.eqb ev "beforeUpdateState") eqn:Hev; [|done].
      apply String.eqb_eq in Hev. subst ev. simpl.
      apply bool_decide_eq_false. intros ->. by apply Hother.
  - injection Hdestroy as <-. repeat split; auto.
Qed.

Lemma destroy_frame_witness :
  exists w',
    destroy 0 Sample.replacedWorld = Ok w'
    /\ heap w' = heap Sample.replacedWorld.
Proof.
  exists (emit_effect (EvDestroyed 0)
            (off "beforeUpdateState" 0
               (set_nodeViewCache Sample.replacedWorld
                  (cache_remove
                     (nodeViewCache (editor Sample.replacedWorld)) 0)))).
  split; [reflexivity|].
  apply (destroy_frame 0 Sample.replacedWorld). reflexivity.
Defined.

(** ** Further properties of the event mediation *)

Lemma drag_type_is_no_other (type : string) :
  String.prefix "drag" type || String.eqb type "drop" = true ->
  String.eqb type "copy" = false
  /\ String.eqb type "paste" = false
  /\ String.eqb type "cut" = false
  /\ String.eqb type "mousedown" = false.
Proof.
  intros Hdrag. apply orb_true_iff in Hdrag as [Hprefix | Hdrop].
  - destruct type as [|first rest]; [done|]. cbn [String.prefix] in Hprefix.
    destruct (Ascii.ascii_dec _ first) as [<-|]; [|done].
    by repeat split.
  - apply String.eqb_eq in Hdrop. by subst type.
Qed.

(** X9: the two guards that come before the policy.  Without a root
    element [stopEvent] answers [false] and does nothing, and an override
    that is configured is not even consulted; with a root element, a
    configured override decides alone: its answer is returned for every
    event, wherever the target is, and nothing else happens. *)
Theorem stopEvent_guards {Component : Type} (this : @NodeView Component)
    (ed : Editor) (event : Event) :
  (dom this = None ->
   stopEvent this ed event = mkOutcome false false this [])
  /\ (forall override,
        is_Some (dom this) ->
        opt_stopEvent (options this) = Some override ->
        stopEvent this ed event = mkOutcome (override event) false this []).
Proof.
  unfold stopEvent. split.
  - by intros ->.
  - intros override [root ->] ->. done.
Qed.

Lemma stopEvent_guards_witness :
  stopEvent Sample.cardView Sample.emptyEditor Sample.clickCaption
  = mkOutcome false false Sample.cardView [].
Proof.
  apply (stopEvent_guards Sample.cardView Sample.emptyEditor
           Sample.clickCaption).
  reflexivity.
Defined.

(** X10: all that [stopEvent] can change is the dragging flag, and only
    from [false] to [true]: either the instance is as before and no listener
    is added to the document, or the instance was not dragging, is now
    dragging and otherwise unchanged, and exactly the two one-shot listeners
    ['dragend'] and ['mouseup'] are added. *)
Theorem stopEvent_only_arms {Component : Type} (this : @NodeView Component)
    (ed : Editor) (event : Event) :
  (this_after (stopEvent this ed event) = this
   /\ documentListeners (stopEvent this ed event) = [])
  \/ (isDragging this = false
      /\ this_after (stopEvent this ed event) = set_isDragging this true
      /\ documentListeners (stopEvent this ed event)
         = ["dragend"; "mouseup"]%string).
Proof.
  unfold stopEvent.
  destruct (dom this) as [root|]; [|by left].
  destruct (opt_stopEvent (options this)); [by left|].
  destruct (negb _); [by left|].
  destruct (_ || _); [by left|].
  cbv zeta.
  set (armed := if _ && _ && negb (isDragging this) && _ then _ else false).
  assert (Harmed : armed = true -> isDragging this = false).
  { unfold armed. destruct (isDragging this); [|done].
    by destruct (truthy _), (isEditable ed). }
  clearbody armed.
  destruct (_ && _ && negb (isDragging this)); [by left|].
  destruct (_ || _ || _ || _ || _); simpl;
    (destruct armed; [right; by auto | by left]).
Qed.

(** Events that get past the guards of [stopEvent]: there is a root
    element and no override, the target is inside the root, outside the
    content element, and is neither a form control nor content-editable. *)
Section Policy.

Context {Component : Type}.
Variables (this : @NodeView Component) (ed : Editor) (event : Event).
Variable root : Element.
Hypothesis Hroot : dom this = Some root.
Hypothesis Hoverride : opt_stopEvent (options this) = None.
Hypothesis Hinside : contains root (ev_target event) = true.
Hypothesis Houtside : contentDOM_contains this (ev_target event) = false.
Hypothesis Hform : isFormControl (ev_target event) = false.
Hypothesis Hedit : isContentEditable (el_self (ev_target event)) = false.

Lemma stopEvent_policy_entry :
  stopEvent this ed event
  = let isDraggable := truthy (spec_draggable (node_type (node this))) in
    let isDragEvent :=
      String.prefix "drag" (ev_type event)
      || String.eqb (ev_type event) "drop" in
    let isClickEvent := String.eqb (ev_type event) "mousedown" in
    let prevented :=
      negb isDraggable && isSelectable (node this) && isDragEvent in
    if isDraggable && isDragEvent && negb (isDragging this)
    then mkOutcome false true this []
    else
      let armed :=
        if isDraggable && isEditable ed && negb (isDragging this)
           && isClickEvent
        then
          match closest_drag_handle (ev_target event) with
          | Some dragHandle =>
              same_element root dragHandle || contains root dragHandle
          | None => false
          end
        else false in
      mkOutcome
        (negb (isDragging this
               || String.eqb (ev_type event) "copy"
               || String.eqb (ev_type event) "paste"
               || String.eqb (ev_type event) "cut"
               || (isClickEvent && isSelectable (node this))))
        prevented
        (if armed then set_isDragging this true else this)
        (if armed then ["dragend"; "mouseup"]%string else []).
Proof.
  unfold stopEvent. rewrite Hroot, Hoverride, Hinside, Houtside, Hform, Hedit.
  simpl. destruct (_ && _ && negb (isDragging this)); [done|].
  by destruct (_ || _ || _ || _ || _).
Qed.

(** Case analysis on the conditions that the policy tests. *)
Local Ltac policy_atoms :=
  repeat match goal with
    | |- context [truthy ?x] => destruct (truthy x)
    | |- context [isSelectable ?x] => destruct (isSelectable x)
    | |- context [isDragging this] => destruct (isDragging this)
    | |- context [isEditable ed] => destruct (isEditable ed)
    | |- context [String.eqb ?a ?b] => destruct (String.eqb a b)
    | |- context [String.prefix ?a ?b] => destruct (String.prefix a b)
    | |- context [closest_drag_handle ?t] => destruct (closest_drag_handle t)
    | |- context [same_element ?a ?b] => destruct (same_element a b)
    | |- context [contains ?a ?b] => destruct (contains a b)
    end;
  simpl; try done.

(** X11: drag-type events (a type that starts with ['drag'], or ['drop'])
    that get past the guards.  On a draggable node the answer is always
    [false], and the browser default is prevented exactly when no drag is
    armed; on a node that is not draggable the answer is [true] unless a
    drag is armed, and the browser default is prevented exactly when the node
    is selectable.  The instance is never changed. *)
Theorem stopEvent_drag_events :
  String.prefix "drag" (ev_type event) || String.eqb (ev_type event) "drop"
  = true ->
  (truthy (spec_draggable (node_type (node this))) = true ->
   stopEvent this ed event
   = mkOutcome false (negb (isDragging this)) this [])
  /\ (truthy (spec_draggable (node_type (node this))) = false ->
      stopEvent this ed event
      = mkOutcome (negb (isDragging this)) (isSelectable (node this))
          this []).
Proof.
  intros Hdrag. rewrite stopEvent_policy_entry. cbv zeta.
  destruct (drag_type_is_no_other _ Hdrag) as (-> & -> & -> & ->).
  rewrite Hdrag. split; intros ->; policy_atoms.
Qed.

(** X12: a ['copy'], ['paste'] or ['cut'] event that gets past the guards
    is left to the host: the answer is [false], the browser default is not
    prevented and the instance is not changed. *)
Theorem stopEvent_clipboard_events :
  ev_type event = "copy"%string \/ ev_type event = "paste"%string
  \/ ev_type event = "cut"%string ->
  stopEvent this ed event = mkOutcome false false this [].
Proof.
  intros Htype. rewrite stopEvent_policy_entry. cbv zeta.
  destruct Htype as [-> | [-> | ->]]; simpl; policy_atoms.
Qed.

(** X13: while a drag is armed, every event that gets past the guards is
    left to the host ([false]) and the instance is not changed. *)
Theorem stopEvent_while_dragging :
  isDragging this = true ->
  returned (stopEvent this ed event) = false
  /\ this_after (stopEvent this ed event) = this
  /\ documentListeners (stopEvent this ed event) = [].
Proof.
  intros Hdragging. rewrite stopEvent_policy_entry. cbv zeta.
  rewrite Hdragging. simpl. policy_atoms.
Qed.

(** X14: a ['mousedown'] that gets past the guards while no drag is armed
    is left to the host exactly when the node is selectable (not a text node,
    and [spec.selectable] is not [false]); the browser default is never
    prevented. *)
Theorem stopEvent_mousedown :
  ev_type event = "mousedown"%string ->
  isDragging this = false ->
  returned (stopEvent this ed event) = negb (isSelectable (node this))
  /\ defaultPrevented (stopEvent this ed event) = false.
Proof.
  intros Htype Hdragging. rewrite stopEvent_policy_entry. cbv zeta.
  rewrite Htype, Hdragging. simpl. policy_atoms.
Qed.

(** X15: any other event that gets past the guards while no drag is armed
    (not a drag-type, clipboard or ['mousedown'] event: a key press, an
    input, a click) is kept from the host: the answer is [true] and nothing
    else happens. *)
Theorem stopEvent_other_events :
  isDragging this = false ->
  String.prefix "drag" (ev_type event) = false ->
  ev_type event <> "drop"%string ->
  ev_type event <> "copy"%string ->
  ev_type event <> "paste"%string ->
  ev_type event <> "cut"%string ->
  ev_type event <> "mousedown"%string ->
  stopEvent this ed event = mkOutcome true false this [].
Proof.
  intros Hdragging Hprefix Hdrop Hcopy Hpaste Hcut Hdown.
  rewrite stopEvent_policy_entry. cbv zeta.
  apply String.eqb_neq in Hdrop, Hcopy, Hpaste, Hcut, Hdown.
  rewrite Hdragging, Hprefix, Hdrop, Hcopy, Hpaste, Hcut, Hdown. simpl.
  policy_atoms.
Qed.

(** X16: the dragging flag is armed exactly when the node is draggable,
    the editor is editable, no drag is armed yet, the event is a
    ['mousedown'], and the closest element with [data-drag-handle], starting
    from the target, exists and is the root or lies inside it. *)
Theorem stopEvent_arms_iff :
  (isDragging this = false
   /\ isDragging (this_after (stopEvent this ed event)) = true)
  <-> (truthy (spec_draggable (node_type (node this))) = true
       /\ isEditable ed = true
       /\ isDragging this = false
       /\ ev_type event = "mousedown"%string
       /\ exists dragHandle,
            closest_drag_handle (ev_target event) = Some dragHandle
            /\ same_element root dragHandle || contains root dragHandle
               = true).
Proof.
  rewrite stopEvent_policy_entry. cbv zeta. split.
  - intros [Hdragging Harmed]. rewrite Hdragging in Harmed |- *.
    destruct (String.eqb (ev_type event) "mousedown") eqn:Hdown.
    + apply String.eqb_eq in Hdown. rewrite Hdown in Harmed. simpl in Harmed.
      destruct (truthy _), (isEditable ed); simpl in Harmed;
        try (by rewrite Hdragging in Harmed).
      destruct (closest_drag_handle _) as [dragHandle|];
        [|by rewrite Hdragging in Harmed].
      destruct (_ || _) eqn:Hvalid; [|by rewrite Hdragging in Harmed].
      repeat split; try done. by exists dragHandle.
    + exfalso. revert Harmed. rewrite !andb_false_r.
      destruct (_ && _ && _); simpl; by rewrite Hdragging.
  - intros (Hdraggable & Heditable & Hdragging & Hdown & dragHandle
            & Hclosest & Hvalid).
    rewrite Hdraggable, Heditable, Hdragging, Hdown, Hclosest, Hvalid.
    done.
Qed.

End Policy.

Lemma stopEvent_drag_events_witness :
  stopEvent Sample.renderedCard Sample.emptyEditor Sample.dragstartLabel
  = mkOutcome false true Sample.renderedCard []
  /\ stopEvent Sample.draggingCard Sample.emptyEditor Sample.dragstartLabel
     = mkOutcome false false Sample.draggingCard [].
Proof.
  destruct (stopEvent_drag_events Sample.renderedCard Sample.emptyEditor
              Sample.dragstartLabel Sample.rootEl
              eq_refl eq_refl eq_refl eq_refl eq_refl eq_refl eq_refl)
    as [Hidle _].
  destruct (stopEvent_drag_events Sample.draggingCard Sample.emptyEditor
              Sample.dragstartLabel Sample.rootEl
              eq_refl eq_refl eq_refl eq_refl eq_refl eq_refl eq_refl)
    as [Hdragging _].
  split; [apply Hidle | apply Hdragging]; reflexivity.
Defined.

Lemma stopEvent_clipboard_events_witness :
  stopEvent Sample.renderedCard Sample.emptyEditor Sample.pasteLabel
  = mkOutcome false false Sample.renderedCard [].
Proof.
  apply (stopEvent_clipboard_events Sample.renderedCard Sample.emptyEditor
           Sample.pasteLabel Sample.rootEl
           eq_refl eq_refl eq_refl eq_refl eq_refl eq_refl).
  right. left. reflexivity.
Defined.

Lemma stopEvent_while_dragging_witness :
  returned (stopEvent Sample.draggingCard Sample.emptyEditor
              Sample.keydownLabel) = false.
Proof.
  apply (stopEvent_while_dragging Sample.draggingCard Sample.emptyEditor
           Sample.keydownLabel Sample.rootEl
           eq_refl eq_refl eq_refl eq_refl eq_refl eq_refl eq_refl).
Defined.

Lemma stopEvent_mousedown_witness :
  isSelectable (node Sample.renderedCard) = true
  /\ returned (stopEvent Sample.renderedCard Sample.emptyEditor
                 Sample.mousedownHandle) = false.
Proof.
  split; [reflexivity|].
  apply (stopEvent_mousedown Sample.renderedCard Sample.emptyEditor
           Sample.mousedownHandle Sample.rootEl
           eq_refl eq_refl eq_refl eq_refl eq_refl eq_refl eq_refl eq_refl).
Defined.

Lemma stopEvent_other_events_witness :
  stopEvent Sample.renderedCard Sample.emptyEditor Sample.keydownLabel
  = mkOutcome true false Sample.renderedCard [].
Proof.
  apply (stopEvent_other_events Sample.renderedCard Sample.emptyEditor
           Sample.keydownLabel Sample.rootEl
           eq_refl eq_refl eq_refl eq_refl eq_refl eq_refl eq_refl eq_refl);
    discriminate.
Defined.

Lemma stopEvent_arms_iff_witness :
  isDragging Sample.renderedCard = false
  /\ isDragging
       (this_after (stopEvent Sample.renderedCard Sample.emptyEditor
                      Sample.mousedownHandle)) = true.
Proof.
  apply (stopEvent_arms_iff Sample.renderedCard Sample.emptyEditor
           Sample.mousedownHandle Sample.rootEl
           eq_refl eq_refl eq_refl eq_refl eq_refl eq_refl).
  repeat split. exists Sample.handleEl. split; reflexivity.
Defined.

(** X17: [event.preventDefault()] is only ever called for a drag-type
    event that got past the guards: never without a root element, never when
    an override is configured, never for a target outside the root, inside
    the content element or on a form control or content-editable element,
    and never for an event whose type neither starts with ['drag'] nor is
    ['drop']. *)
Theorem stopEvent_prevents_only_drags {Component : Type}
    (this : @NodeView Component) (ed : Editor) (event : Event) :
  defaultPrevented (stopEvent this ed event) = true ->
  String.prefix "drag" (ev_type event) || String.eqb (ev_type event) "drop"
  = true
  /\ opt_stopEvent (options this) = None
  /\ contentDOM_contains this (ev_target event) = false
  /\ isFormControl (ev_target event) = false
  /\ isContentEditable (el_self (ev_target event)) = false
  /\ exists root,
       dom this = Some root /\ contains root (ev_target event) = true.
Proof.
  unfold stopEvent.
  destruct (dom this) as [root|]; [|done].
  destruct (opt_stopEvent (options this)); [done|].
  destruct (contains root (ev_target event)) eqn:Hinside; [|done].
  destruct (contentDOM_contains this (ev_target event)); [done|].
  destruct (isFormControl (ev_target event)); [done|].
  destruct (isContentEditable (el_self (ev_target event))); [done|].
  simpl.
  destruct (String.prefix "drag" (ev_type event)
            || String.eqb (ev_type event) "drop").
  - intros _. do 5 (split; [done|]). by exists root.
  - rewrite !andb_false_r. simpl.
    by destruct (_ || _ || _ || _ || _).
Qed.

Lemma stopEvent_prevents_only_drags_witness :
  defaultPrevented
    (stopEvent Sample.renderedCard Sample.emptyEditor Sample.dragstartLabel)
  = true
  /\ String.prefix "drag" (ev_type Sample.dragstartLabel)
     || String.eqb (ev_type Sample.dragstartLabel) "drop" = true.
Proof.
  split; [reflexivity|].
  apply (stopEvent_prevents_only_drags Sample.renderedCard Sample.emptyEditor
           Sample.dragstartLabel).
  reflexivity.
Defined.

(** ** Further properties of the mutation filter *)

(** X18: the platform quirk touches child-list mutations only, and only in
    one direction: for a mutation of any other type the answer is the same
    on every platform, and whatever the host is told to ignore on the quirky
    platform it is also told to ignore elsewhere. *)
Theorem ignoreMutation_platform {Component : Type}
    (this : @NodeView Component) (mutation : Mutation) :
  (mut_type mutation <> childList ->
   ignoreMutation this true mutation = ignoreMutation this false mutation)
  /\ (ignoreMutation this true mutation = true ->
      ignoreMutation this false mutation = true).
Proof.
  unfold ignoreMutation.
  destruct (dom this) as [root|], (contentDOM this) as [content|];
    try done.
  destruct (isLeaf (node this)); [done|].
  destruct (bool_decide (mut_type mutation = selection)); [done|].
  rewrite andb_false_r. cbv zeta. split.
  - intros Hother. rewrite (bool_decide_eq_false_2 _ Hother).
    by rewrite andb_false_r.
  - destruct (_ && _ && true); [|done].
    by destruct (forallb _ _).
Qed.

Lemma ignoreMutation_platform_witness :
  ignoreMutation Sample.renderedCard true
    (Sample.attributesOn Sample.paragraphEl)
  = ignoreMutation Sample.renderedCard false
      (Sample.attributesOn Sample.paragraphEl)
  /\ ignoreMutation Sample.renderedCard false
       (Sample.attributesOn Sample.contentEl) = true.
Proof.
  destruct (ignoreMutation_platform Sample.renderedCard
              (Sample.attributesOn Sample.paragraphEl)) as [Hsame _].
  destruct (ignoreMutation_platform Sample.renderedCard
              (Sample.attributesOn Sample.contentEl)) as [_ Hweaker].
  split; [apply Hsame; discriminate | apply Hweaker; reflexivity].
Defined.

(** X19: for a view with a root and a content element whose node is not a
    leaf, and a mutation that is not a selection and is out of reach of the
    platform quirk: an attribute mutation on the content element itself is
    ignored; a mutation whose target is outside the content element is
    ignored; every other mutation inside the content element is left to the
    host. *)
Theorem ignoreMutation_content_region {Component : Type}
    (this : @NodeView Component) (isiOS : bool) (mutation : Mutation)
    (root content : Element) :
  dom this = Some root ->
  contentDOM this = Some content ->
  isLeaf (node this) = false ->
  mut_type mutation <> selection ->
  isiOS = false \/ mut_type mutation <> childList ->
  (same_element content (mut_target mutation) = true ->
   mut_type mutation = attributes ->
   ignoreMutation this isiOS mutation = true)
  /\ (contains content (mut_target mutation) = false ->
      ignoreMutation this isiOS mutation = true)
  /\ (contains content (mut_target mutation) = true ->
      same_element content (mut_target mutation) = false
      \/ mut_type mutation <> attributes ->
      ignoreMutation this isiOS mutation = false).
Proof.
  intros Hroot Hcontent Hleaf Hsel Hquirk. unfold ignoreMutation.
  rewrite Hroot, Hcontent, Hleaf.
  rewrite (bool_decide_eq_false_2 _ Hsel). cbv zeta.
  assert (Hoff : contains root (mut_target mutation)
                 && bool_decide (mut_type mutation = childList) && isiOS
                 = false).
  { destruct Hquirk as [-> | Hother]; [by rewrite andb_false_r|].
    rewrite (bool_decide_eq_false_2 _ Hother).
    by rewrite andb_false_r. }
  rewrite Hoff. split; [|split].
  - intros -> ->. done.
  - intros Hout. rewrite Hout.
    assert (Hdiff : same_element content (mut_target mutation) = false).
    { unfold same_element. apply bool_decide_eq_false. intros Hid.
      unfold contains, el_chain in Hout. simpl in Hout.
      apply orb_false_iff in Hout as [Hself _].
      apply bool_decide_eq_false in Hself. apply Hself. by symmetry. }
    by rewrite Hdiff.
  - intros -> [-> | Hother]; [done|].
    rewrite (bool_decide_eq_false_2 _ Hother).
    by rewrite andb_false_r.
Qed.

Lemma ignoreMutation_content_region_witness :
  ignoreMutation Sample.renderedCard true
    (Sample.attributesOn Sample.contentEl) = true
  /\ ignoreMutation Sample.renderedCard true
       (Sample.attributesOn Sample.labelEl) = true
  /\ ignoreMutation Sample.renderedCard true
       (Sample.attributesOn Sample.paragraphEl) = false.
Proof.
  destruct (ignoreMutation_content_region Sample.renderedCard true
              (Sample.attributesOn Sample.contentEl)
              Sample.rootEl Sample.contentEl eq_refl eq_refl eq_refl
              ltac:(discriminate) ltac:(right; discriminate))
    as (Hself & _ & _).
  destruct (ignoreMutation_content_region Sample.renderedCard true
              (Sample.attributesOn Sample.labelEl)
              Sample.rootEl Sample.contentEl eq_refl eq_refl eq_refl
              ltac:(discriminate) ltac:(right; discriminate))
    as (_ & Hout & _).
  destruct (ignoreMutation_content_region Sample.renderedCard true
              (Sample.attributesOn Sample.paragraphEl)
              Sample.rootEl Sample.contentEl eq_refl eq_refl eq_refl
              ltac:(discriminate) ltac:(right; discriminate))
    as (_ & _ & Hin).
  split; [apply Hself; reflexivity|].
  split; [apply Hout; reflexivity|].
  apply Hin; [reflexivity | left; reflexivity].
Defined.

(** X20: on the quirky platform, for a view with both elements and a node
    that is not a leaf, a child-list mutation whose target is inside the
    root is left to the host as soon as every added and removed node is
    content-editable, which includes the mutation that adds and removes no
    node at all, and includes targets outside the content element; if some
    changed node is not content-editable the answer is the one of the other
    platforms. *)
Theorem ignoreMutation_platform_quirk {Component : Type}
    (this : @NodeView Component) (mutation : Mutation)
    (root content : Element) :
  dom this = Some root ->
  contentDOM this = Some content ->
  isLeaf (node this) = false ->
  mut_type mutation = childList ->
  contains root (mut_target mutation) = true ->
  (Forall (fun n => isContentEditable (el_self n) = true)
     (addedNodes mutation ++ removedNodes mutation) ->
   ignoreMutation this true mutation = false)
  /\ (Exists (fun n => isContentEditable (el_self n) = false)
        (addedNodes mutation ++ removedNodes mutation) ->
      ignoreMutation this true mutation
      = ignoreMutation this false mutation).
Proof.
  intros Hroot Hcontent Hleaf Htype Hinside. unfold ignoreMutation.
  rewrite Hroot, Hcontent, Hleaf, Htype, Hinside. simpl. split.
  - intros Hall.
    assert (Hevery : forallb (fun n => isContentEditable (el_self n))
                       (addedNodes mutation ++ removedNodes mutation) = true).
    { apply forallb_forall. intros n Hn.
      rewrite Forall_forall in Hall. apply Hall.
      by apply list_elem_of_In. }
    by rewrite Hevery.
  - intros Hsome.
    assert (Hevery : forallb (fun n => isContentEditable (el_self n))
                       (addedNodes mutation ++ removedNodes mutation)
                     = false).
    { apply not_true_is_false. intros Hall.
      rewrite forallb_forall in Hall.
      apply Exists_exists in Hsome as (n & Hn & Hno).
      apply list_elem_of_In in Hn. apply Hall in Hn. congruence. }
    by rewrite Hevery.
Qed.

Lemma ignoreMutation_platform_quirk_witness :
  ignoreMutation Sample.renderedCard true
    (Sample.childListOn Sample.labelEl []) = false
  /\ ignoreMutation Sample.renderedCard false
       (Sample.childListOn Sample.labelEl []) = true
  /\ ignoreMutation Sample.renderedCard true
       (Sample.childListOn Sample.labelEl [Sample.inputEl]) = true.
Proof.
  destruct (ignoreMutation_platform_quirk Sample.renderedCard
              (Sample.childListOn Sample.labelEl [])
              Sample.rootEl Sample.contentEl
              eq_refl eq_refl eq_refl eq_refl eq_refl) as [Hempty _].
  destruct (ignoreMutation_platform_quirk Sample.renderedCard
              (Sample.childListOn Sample.labelEl [Sample.inputEl])
              Sample.rootEl Sample.contentEl
              eq_refl eq_refl eq_refl eq_refl eq_refl) as [_ Hmixed].
  split; [apply Hempty; constructor|]. split; [reflexivity|].
  rewrite Hmixed; [reflexivity|]. constructor. reflexivity.
Defined.

(** ** Further properties of the attribute update *)



(** X22: a patch that sets a declared attribute to [undefined] does not
    store [undefined] for it.  In an editable view with a node at the
    position that [getPos] reports: if the attribute has no default the call
    throws and dispatches nothing; and whenever the call dispatches, the
    transaction gives the attribute its default. *)
Theorem updateAttributes_undefined_value {Component : Type}
    (typeAttrs : NodeType -> gmap string Attribute)
    (this : @NodeView Component) (attributes : gmap string JsValue)
    (w : @World Component) (found : ProseMirrorNode) (key : string)
    (attr : Attribute) :
  editable (view (editor w)) = true ->
  nodeAt (state_doc (view_state (view (editor w))))
    (getPos this (view (editor w))) = Some found ->
  typeAttrs (node_type found) !! key = Some attr ->
  attributes !! key = Some JsUndefined ->
  (hasDefault attr = false ->
   exists e, updateAttributes typeAttrs this attributes w = Throw e)
  /\ (forall w',
        updateAttributes typeAttrs this attributes w = Ok w' ->
        exists built,
          trace w'
          = trace w
            ++ [EvDispatch
                  (SetNodeMarkup (getPos this (view (editor w)))
                     (node_type found) built)]
          /\ built !! key = Some (default attr)).
Proof.
  intros Hedit Hfound Hdeclared Hpatch.
  assert (Hmerged : spread_attrs (attrs (node this)) attributes !! key
                    = Some JsUndefined).
  { by rewrite spread_attrs_lookup, Hpatch. }
  unfold updateAttributes, setNodeMarkup. rewrite Hedit, Hfound. simpl.
  split.
  - intros Hdefault.
    destruct (computeAttrs_throws _
                (spread_attrs (attrs (node this)) attributes) key attr
                Hdeclared Hdefault) as [e He].
    { by rewrite Hmerged. }
    rewrite He. by eexists.
  - intros w'.
    destruct (computeAttrs _ _) as [built|e] eqn:Hbuilt; [|done].
    intros [= <-]. exists built. split; [done|].
    by rewrite (computeAttrs_lookup _ _ _ key Hbuilt), Hdeclared, Hmerged.
Qed.

Lemma updateAttributes_undefined_value_witness :
  (exists e,
     updateAttributes Sample.typeAttrs Sample.renderedImage Sample.resetSrc
       Sample.imageWorld = Throw e)
  /\ exists w' built,
       updateAttributes Sample.typeAttrs Sample.cardView Sample.resetCount
         Sample.cardWorld = Ok w'
       /\ trace w'
          = [EvMount 0; EvDispatch (SetNodeMarkup 5 Sample.cardType built)]
       /\ built !! "count"%string = Some (JsNumber 0).
Proof.
  destruct (updateAttributes_undefined_value Sample.typeAttrs
              Sample.renderedImage Sample.resetSrc Sample.imageWorld
              Sample.image "src"%string (mkAttribute false JsUndefined)
              eq_refl eq_refl eq_refl eq_refl) as [Hthrows _].
  destruct (updateAttributes_undefined_value Sample.typeAttrs
              Sample.cardView Sample.resetCount Sample.cardWorld
              Sample.card "count"%string (mkAttribute true (JsNumber 0))
              eq_refl eq_refl eq_refl eq_refl) as [_ Hdefault].
  split; [apply Hthrows; reflexivity|].
  assert (Hrun : exists w',
            updateAttributes Sample.typeAttrs Sample.cardView
              Sample.resetCount Sample.cardWorld = Ok w').
  { eexists. vm_compute. reflexivity. }
  destruct Hrun as [w' Hrun].
  destruct (Hdefault w' Hrun) as (built & Htrace & Hcount).
  exists w', built. split; [exact Hrun|]. split; [exact Htrace | exact Hcount].
Defined.

(** ** Properties of the drag initiation *)

Lemma closest_drag_handle_of_parent (d : ElementData)
    (up : list ElementData) :
  dragHandleOf (TargetText (d :: up))
  = dragHandleOf (TargetElement (mkElement d up)).
Proof. reflexivity. Qed.

(** X23: [onDragStart] does nothing at all (no drag image, no dispatch)
    exactly when there is no root element, or the target is inside the
    content element, or no element with [data-drag-handle] is found from the
    target upwards; otherwise it dispatches one transaction, which selects
    the node at the position that [getPos] reports in the current document
    of the view, whatever the layout, the pointer offsets and the data
    transfer are. *)
Theorem onDragStart_aborts_iff {Component num : Type}
    (zero : num) (add sub : num -> num -> num)
    (this : @NodeView Component) (ed : Editor)
    (layout : Element -> @DOMRect num) (event : @DragEvent num) :
  let outcome := onDragStart zero add sub this ed layout event in
  (dispatchedSelection outcome = None <->
     dom this = None
     \/ (exists content,
           contentDOM this = Some content
           /\ contains_target content (drag_target event) = true)
     \/ dragHandleOf (drag_target event) = None)
  /\ (dispatchedSelection outcome = None -> dragImage outcome = None)
  /\ (forall sel,
        dispatchedSelection outcome = Some sel ->
        sel = mkNodeSelection (state_doc (view_state (view ed)))
                (getPos this (view ed))).
Proof.
  unfold onDragStart. cbv zeta.
  destruct (dom this) as [root|].
  2:{ split; [|done]. split; [by left | done]. }
  destruct (contentDOM this) as [content|].
  - destruct (contains_target content (drag_target event)) eqn:Hin.
    + split; [|done]. split; [|done]. intros _. right. left. by exists content.
    + destruct (dragHandleOf (drag_target event)) as [handle|].
      * destruct (if negb (same_element root handle) then _ else _)
          as [x y].
        split; [|split]; [| done | by intros sel [= <-]].
        split; [done|]. intros [Hno | [(c & [= <-] & Hc) | Hno]];
          [done | congruence | done].
      * split; [|done]. split; [|done]. intros _. by right; right.
  - destruct (dragHandleOf (drag_target event)) as [handle|].
    + destruct (if negb (same_element root handle) then _ else _) as [x y].
      split; [|split]; [| done | by intros sel [= <-]].
      split; [done|]. intros [Hno | [(c & Hc & _) | Hno]]; done.
    + split; [|done]. split; [|done]. intros _. by right; right.
Qed.

Lemma onDragStart_aborts_iff_witness :
  dispatchedSelection
    (onDragStart 0 Z.add Z.sub Sample.renderedCard Sample.emptyEditor
       Sample.layout Sample.dragFromParagraph) = None
  /\ dragImage
       (onDragStart 0 Z.add Z.sub Sample.renderedCard Sample.emptyEditor
          Sample.layout Sample.dragFromParagraph) = None
  /\ exists sel,
       dispatchedSelection
         (onDragStart 0 Z.add Z.sub Sample.renderedCard Sample.emptyEditor
            Sample.layout Sample.dragFromHandle) = Some sel
       /\ sel_pos sel = 5.
Proof.
  destruct (onDragStart_aborts_iff 0 Z.add Z.sub Sample.renderedCard
              Sample.emptyEditor Sample.layout Sample.dragFromParagraph)
    as (Habort & Himage & _).
  assert (Hnone : dispatchedSelection
                    (onDragStart 0 Z.add Z.sub Sample.renderedCard
                       Sample.emptyEditor Sample.layout
                       Sample.dragFromParagraph) = None).
  { apply Habort. right. left. exists Sample.contentEl.
    split; reflexivity. }
  split; [exact Hnone|]. split; [exact (Himage Hnone)|].
  exists (mkNodeSelection (Sample.cardAt 5) 5).
  split; reflexivity.
Defined.

(** X24: when [onDragStart] goes ahead, the drag image is the root
    element; its offset is (0, 0) when the handle found is the root itself,
    and otherwise the handle's corner minus the root's corner plus the
    pointer offset of the event, on each axis; without a data transfer no
    drag image is set, and the selection is dispatched all the same. *)
Theorem onDragStart_drag_image {Component num : Type}
    (zero : num) (add sub : num -> num -> num)
    (this : @NodeView Component) (ed : Editor)
    (layout : Element -> @DOMRect num) (event : @DragEvent num)
    (root dragHandle : Element) :
  dom this = Some root ->
  (forall content, contentDOM this = Some content ->
                   contains_target content (drag_target event) = false) ->
  dragHandleOf (drag_target event) = Some dragHandle ->
  let outcome := onDragStart zero add sub this ed layout event in
  (hasDataTransfer event = false ->
   dragImage outcome = None /\ dispatchedSelection outcome <> None)
  /\ (hasDataTransfer event = true ->
      same_element root dragHandle = true ->
      dragImage outcome = Some (root, zero, zero))
  /\ (hasDataTransfer event = true ->
      same_element root dragHandle = false ->
      dragImage outcome
      = Some (root,
              add (sub (rect_x (layout dragHandle)) (rect_x (layout root)))
                (offsetX event),
              add (sub (rect_y (layout dragHandle)) (rect_y (layout root)))
                (offsetY event))).
Proof.
  intros Hroot Hcontent Hhandle. unfold onDragStart. cbv zeta.
  rewrite Hroot, Hhandle.
  assert (Hout : match contentDOM this with
                 | Some content => contains_target content (drag_target event)
                 | None => false
                 end = false).
  { destruct (contentDOM this) as [content|]; [by apply Hcontent | done]. }
  rewrite Hout. split; [|split].
  - intros ->. by destruct (negb _).
  - intros -> ->. done.
  - intros -> ->. done.
Qed.

Lemma onDragStart_drag_image_witness :
  dragImage
    (onDragStart 0 Z.add Z.sub Sample.renderedCard Sample.emptyEditor
       Sample.layout Sample.dragFromHandle)
  = Some (Sample.rootEl, 13, 10)
  /\ dragImage
       (onDragStart 0 Z.add Z.sub Sample.gripCard Sample.emptyEditor
          Sample.layout Sample.dragFromGripLabel)
     = Some (Sample.gripEl, 0, 0).
Proof.
  destruct (onDragStart_drag_image 0 Z.add Z.sub Sample.renderedCard
              Sample.emptyEditor Sample.layout Sample.dragFromHandle
              Sample.rootEl Sample.handleEl eq_refl
              ltac:(by intros content [= <-]) eq_refl)
    as (_ & _ & Hoffset).
  destruct (onDragStart_drag_image 0 Z.add Z.sub Sample.gripCard
              Sample.emptyEditor Sample.layout Sample.dragFromGripLabel
              Sample.gripEl Sample.gripEl eq_refl
              ltac:(by intros content) eq_refl)
    as (_ & Hzero & _).
  split.
  - rewrite Hoffset; reflexivity.
  - apply Hzero; reflexivity.
Defined.

(** X25: a drag that starts on a text node is handled as one that starts
    on its parent element, and a text node without a parent element starts
    no drag. *)
Theorem onDragStart_text_target {Component num : Type}
    (zero : num) (add sub : num -> num -> num)
    (this : @NodeView Component) (ed : Editor)
    (layout : Element -> @DOMRect num)
    (x y : num) (transfer : bool) :
  (forall (parent : ElementData) (up : list ElementData),
     onDragStart zero add sub this ed layout
       (mkDragEvent (TargetText (parent :: up)) x y transfer)
     = onDragStart zero add sub this ed layout
         (mkDragEvent (TargetElement (mkElement parent up)) x y transfer))
  /\ onDragStart zero add sub this ed layout
       (mkDragEvent (TargetText []) x y transfer)
     = mkDragOutcome None None.
Proof.
  split.
  - intros parent up. reflexivity.
  - unfold onDragStart. simpl.
    destruct (dom this); [|done].
    by destruct (contentDOM this).
Qed.
